(** * slacker: GitHub item reconciliation and volunteer assignment

    A shallow embedding of [src/lib/octokit.ts]: the webhook handler
    [createGithubItem] and the volunteer coordinator
    [assignIssueToVolunteer], run against a record store (the Prisma
    client), the GitHub REST client and the Slack client.

    The asynchronous code is sequential between its awaits, so it is
    embedded in a state-and-exception monad over a [World]: the record
    store and the chronological trace of calls made to the outside.
    Metric counters and the fixed progress lines written to the console
    leave no mark on either and are left out. *)

From stdpp Require Import gmap strings list fin_maps.
From Stdlib Require Import Ascii String.

Local Open Scope string_scope.

(** ** Data model *)

(** Modelled from the spec: the Prisma schema (prisma/schema.prisma) is
    not among the sources. The records hold the fields that octokit.ts
    reads and writes; following section 6 of the spec, an item row carries
    its label-association rows and its one-to-one workflow sub-record. *)

Inductive GithubItemType := ty_issue | ty_pull_request.

Inductive Status := st_open | st_closed.

Record Repository := {
  repo_id : nat;
  repo_name : string;
  repo_owner : string;
  repo_url : string }.

Record User := {
  u_id : nat;
  githubUsername : option string;
  githubToken : option string;
  slackId : option string }.

(** The workflow record; [participants] are the rows of its participant
    relation. *)
Record ActionItem := {
  ai_id : nat;
  ai_status : Status;
  totalReplies : nat;
  resolvedAt : option string;
  participants : list nat }.

Record GithubItem := {
  gi_id : nat;
  nodeId : string;
  title : string;
  body : string;
  number : nat;
  state : Status;
  type : GithubItemType;
  createdAt : string;
  updatedAt : string;
  authorId : option nat;
  repositoryId : option nat;
  labelsOnItems : list string;
  actionItem : option ActionItem }.

Record VolunteerDetail := {
  vd_assignee : nat;
  assignedOn : string;
  vd_issue : nat }.

(** The record store. Repositories are keyed by their unique url, items by
    their unique node identifier, labels by their unique name. *)
Record Store := {
  repositories : gmap string Repository;
  users : list User;
  githubItems : gmap string GithubItem;
  labels : gset string;
  volunteerDetails : list VolunteerDetail;
  nextId : nat }.

(** ** Webhook payloads (section 6 of the spec, fields used by the code) *)

Record PayloadItem := {
  node_id : string;
  p_title : string;
  p_body : option string;
  p_number : nat;
  user_login : string;
  p_labels : option (list string);
  created_at : string;
  updated_at : string }.

Record PayloadRepository := {
  p_name : string;
  owner_login : string;
  html_url : string }.

Record Payload := {
  p_issue : option PayloadItem;
  p_pull_request : option PayloadItem;
  p_repository : PayloadRepository }.

(** ** Candidates handed to the coordinator: workflow records joined with
    their item and the item's repository *)

Record JoinedItem := {
  j_item : GithubItem;
  j_repository : option Repository }.

Record Candidate := {
  c_actionItem : ActionItem;
  c_githubItem : option JoinedItem }.

(** ** The outside world *)

Record Maintainer := {
  m_id : string;
  m_slack : string;
  m_github : option string }.

Inductive SlackText :=
| ConnectGithubFirst (user : string)
| OneIssueAtATime (owner name : option string) (num : option nat)
| AssignedTo (num : option nat) (url name owner : option string).

Inductive SlackCall :=
| PostEphemeral (user channel : string) (text : SlackText)
| PostMessage (channel : string) (text : SlackText).

Record SlackResponse := { ts : string }.

Inductive Exn := TypeError | PrismaError | HttpError | SlackError.

Inductive Event :=
| GetInstallationToken (owner repo : string)
| IssuesGet (auth owner repo : string) (num : nat)
| CreateComment (auth owner repo : string) (num : nat) (text : string)
| AddAssignees (auth owner repo : string) (num : nat) (assignees : list string)
| Slack (call : SlackCall)
| ConsoleLog (e : Exn)
| IndexDocument (id : nat).

(** Configuration and oracles. [getProjectName] and [getMaintainers] live
    in ./utils, outside the sources: they are taken as parameters. A remote
    call answers [None] (or [false]) when it throws. *)
Record Env := {
  getProjectName : string -> option string;
  getMaintainers : string -> list (option Maintainer);
  installationToken : string -> string -> option string;
  issues_get : string -> string -> string -> nat -> option (option (list string));
  issues_createComment : string -> string -> string -> nat -> string -> bool;
  issues_addAssignees : string -> string -> string -> nat -> list string -> bool;
  slack_post : SlackCall -> option SlackResponse;
  now : string }.

(** ** The monad *)

Record World := { db : Store; trace : list Event }.

Inductive Res (A : Type) := Ok (a : A) | Throw (e : Exn).
Arguments Ok {A} a.
Arguments Throw {A} e.

Definition M (A : Type) : Type := World -> World * Res A.

Definition ret {A} (a : A) : M A := fun w => (w, Ok a).

Definition throw {A} (e : Exn) : M A := fun w => (w, Throw e).

Definition bind {A B} (m : M A) (k : A -> M B) : M B :=
  fun w => match m w with
           | (w', Ok a) => k a w'
           | (w', Throw e) => (w', Throw e)
           end.

(** [try { m } catch (e) { h e }] *)
Definition try_catch {A} (m : M A) (h : Exn -> M A) : M A :=
  fun w => match m w with
           | (w', Ok a) => (w', Ok a)
           | (w', Throw e) => h e w'
           end.

Definition emit (e : Event) : M unit :=
  fun w => ({| db := db w; trace := trace w ++ [e] |}, Ok tt).

(** A store operation: it may change the store and may throw. *)
Definition prisma {A} (op : Store -> Store * Res A) : M A :=
  fun w => let '(s, r) := op (db w) in ({| db := s; trace := trace w |}, r).

(** A store query. *)
Definition query {A} (q : Store -> A) : M A :=
  fun w => (w, Ok (q (db w))).

Declare Scope js_scope.
Delimit Scope js_scope with js.
Notation "'let*' x ':=' m 'in' k" := (bind m (fun x => k))
  (at level 10, x name, m at level 100, k at level 200) : js_scope.
Notation "m ';;' k" := (bind m (fun _ => k))
  (at level 100, k at level 200, right associativity) : js_scope.
Local Open Scope js_scope.

(** ** JavaScript idioms *)

(** Truthiness of an optional string: [null], [undefined] and the empty
    string are falsy. *)
Definition truthy (o : option string) : bool :=
  match o with
  | Some s => negb (String.eqb s "")
  | None => false
  end.

(** [o || ""] *)
Definition or_empty (o : option string) : string :=
  if truthy o then default "" o else "".

(** [a || b] on optional objects. *)
Definition or_else {A} (a b : option A) : option A :=
  match a with
  | Some x => Some x
  | None => b
  end.

(** [s.startsWith(p)] *)
Definition startsWith (s p : string) : bool := String.prefix p s.

(** ** Store operations (the Prisma client calls of octokit.ts) *)

(** [prisma.repository.upsert({where: {url}, create: {name, owner, url},
    update: {name, owner}})] *)
Definition repository_upsert (url name owner : string) (s : Store)
  : Store * Res Repository :=
  match repositories s !! url with
  | Some r =>
      let r' := {| repo_id := repo_id r; repo_name := name;
                   repo_owner := owner; repo_url := repo_url r |} in
      ({| repositories := <[url := r']> (repositories s);
          users := users s; githubItems := githubItems s;
          labels := labels s; volunteerDetails := volunteerDetails s;
          nextId := nextId s |}, Ok r')
  | None =>
      let r' := {| repo_id := nextId s; repo_name := name;
                   repo_owner := owner; repo_url := url |} in
      ({| repositories := <[url := r']> (repositories s);
          users := users s; githubItems := githubItems s;
          labels := labels s; volunteerDetails := volunteerDetails s;
          nextId := S (nextId s) |}, Ok r')
  end.

(** [prisma.user.findFirst({where: {githubUsername: login}})] *)
Definition user_findFirst (login : string) (s : Store) : option User :=
  List.find (fun u => bool_decide (githubUsername u = Some login)) (users s).

(** [prisma.user.create({data: {githubUsername: login}})] *)
Definition user_create (login : string) (s : Store) : Store * Res User :=
  let u := {| u_id := nextId s; githubUsername := Some login;
              githubToken := None; slackId := None |} in
  ({| repositories := repositories s; users := users s ++ [u];
      githubItems := githubItems s; labels := labels s;
      volunteerDetails := volunteerDetails s; nextId := S (nextId s) |},
   Ok u).

(** [prisma.actionItem.findFirst({where: {githubItem: {nodeId}}})] *)
Definition actionItem_findFirst (nid : string) (s : Store) : option ActionItem :=
  githubItems s !! nid ≫= actionItem.

(** [item.labels?.map(({name}) => ({label: {connectOrCreate: ...}}))]:
    the names of the association rows to create; nothing when the payload
    has no label list. *)
Definition label_rows (ls : option (list string)) : list string :=
  default [] ls.

(** [actionItem?.resolvedAt ? "closed" : "open"] *)
Definition status_of (found : option ActionItem) : Status :=
  match found ≫= resolvedAt with
  | Some _ => st_closed
  | None => st_open
  end.

(** [item.node_id.startsWith("I_") ? GithubItemType.issue
                                   : GithubItemType.pull_request] *)
Definition type_of (nid : string) : GithubItemType :=
  if startsWith nid "I_" then ty_issue else ty_pull_request.

(** The row written by the create branch of the item upsert. *)
Definition created_item (author : User) (dbRepo : Repository)
    (item : PayloadItem) (fresh : nat) : GithubItem :=
  {| gi_id := fresh;
     nodeId := node_id item;
     title := p_title item;
     body := or_empty (p_body item);
     number := p_number item;
     state := st_open;
     type := type_of (node_id item);
     createdAt := created_at item;
     updatedAt := updated_at item;
     authorId := Some (u_id author);
     repositoryId := Some (repo_id dbRepo);
     labelsOnItems := label_rows (p_labels item);
     actionItem := Some {| ai_id := S fresh; ai_status := st_open;
                           totalReplies := 0; resolvedAt := None;
                           participants := [] |} |}.

(** The row written by the update branch: the label rows are deleted and
    recreated, the workflow record [ai] gets its status and loses its
    participants. *)
Definition updated_item (g : GithubItem) (ai : ActionItem)
    (item : PayloadItem) (found : option ActionItem) : GithubItem :=
  {| gi_id := gi_id g;
     nodeId := nodeId g;
     title := p_title item;
     body := or_empty (p_body item);
     number := number g;
     state := st_open;
     type := type g;
     createdAt := createdAt g;
     updatedAt := updated_at item;
     authorId := authorId g;
     repositoryId := repositoryId g;
     labelsOnItems := label_rows (p_labels item);
     actionItem := Some {| ai_id := ai_id ai; ai_status := status_of found;
                           totalReplies := totalReplies ai;
                           resolvedAt := resolvedAt ai;
                           participants := [] |} |}.

(** [prisma.githubItem.upsert({where: {nodeId}, create, update,
    include: {actionItem: true}})]. The nested update of the workflow
    record fails when the item has none; a failed upsert writes nothing. *)
Definition githubItem_upsert (author : User) (dbRepo : Repository)
    (item : PayloadItem) (found : option ActionItem) (s : Store)
  : Store * Res GithubItem :=
  match githubItems s !! node_id item with
  | None =>
      let g := created_item author dbRepo item (nextId s) in
      ({| repositories := repositories s; users := users s;
          githubItems := <[node_id item := g]> (githubItems s);
          labels := labels s ∪ list_to_set (label_rows (p_labels item));
          volunteerDetails := volunteerDetails s;
          nextId := S (S (nextId s)) |}, Ok g)
  | Some g =>
      match actionItem g with
      | None => (s, Throw PrismaError)
      | Some ai =>
          let g' := updated_item g ai item found in
          ({| repositories := repositories s; users := users s;
              githubItems := <[node_id item := g']> (githubItems s);
              labels := labels s ∪ list_to_set (label_rows (p_labels item));
              volunteerDetails := volunteerDetails s;
              nextId := nextId s |}, Ok g')
      end
  end.

(** ** The item reconciler *)

(** [maintainers.find((maintainer) => maintainer?.github === login)] *)
Definition is_maintainer (ms : list (option Maintainer)) (login : string) : bool :=
  existsb (fun m => bool_decide (m ≫= m_github = Some login)) ms.

(** [createGithubItem(payload)]. The payload's item is dereferenced for
    its author login right after the repository upsert; a payload with
    neither branch raises there. *)
Definition createGithubItem (env : Env) (payload : Payload) : M unit :=
  let item := or_else (p_issue payload) (p_pull_request payload) in
  let repository := p_repository payload in
  let project := getProjectName env (html_url repository) in
  if negb (truthy project) then ret tt else
  let* dbRepo := prisma (repository_upsert (html_url repository)
                           (p_name repository) (owner_login repository)) in
  let maintainers := getMaintainers env (html_url repository) in
  match item with
  | None => throw TypeError
  | Some item =>
      if is_maintainer maintainers (user_login item) then ret tt else
      let* user := query (user_findFirst (user_login item)) in
      let* author := match user with
                     | None => prisma (user_create (user_login item))
                     | Some u => ret u
                     end in
      let* found := query (actionItem_findFirst (node_id item)) in
      let* githubItem := prisma (githubItem_upsert author dbRepo item found) in
      match actionItem githubItem with
      | None => throw TypeError
      | Some ai => emit (IndexDocument (ai_id ai))
      end
  end.

(** ** The remote item client and the messaging client *)

(** A call to the outside: it is recorded, then answers or throws. *)
Definition remote {A} (e : Event) (answer : option A) (err : Exn) : M A :=
  emit e ;;
  match answer with
  | Some a => ret a
  | None => throw err
  end.

Definition guard_ok (b : bool) : option unit := if b then Some tt else None.

(** [getOctokitToken(owner, repo)]: the empty token when either name is
    missing, else the installation token of the app. *)
Definition getOctokitToken (env : Env) (owner repo : string) : M string :=
  if negb (truthy (Some owner)) || negb (truthy (Some repo)) then ret "" else
  remote (GetInstallationToken owner repo) (installationToken env owner repo)
         HttpError.

Definition slack_call (env : Env) (c : SlackCall) : M SlackResponse :=
  remote (Slack c) (slack_post env c) SlackError.

(** ** Volunteer claims in the store *)

Definition githubItem_by_id (i : nat) (s : Store) : option GithubItem :=
  snd <$> List.find (fun kv => Nat.eqb (gi_id kv.2) i)
                    (map_to_list (githubItems s)).

Definition repository_by_id (i : nat) (s : Store) : option Repository :=
  snd <$> List.find (fun kv => Nat.eqb (repo_id kv.2) i)
                    (map_to_list (repositories s)).

Definition join_item (s : Store) (g : GithubItem) : JoinedItem :=
  {| j_item := g;
     j_repository := repositoryId g ≫= (fun i => repository_by_id i s) |}.

(** [prisma.volunteerDetail.findFirst({where: {assignee: {id}},
    include: {issue: {select: {repository: ..., number: true}}}})] *)
Definition volunteerDetail_findFirst (uid : nat) (s : Store)
  : option (VolunteerDetail * option JoinedItem) :=
  (fun v => (v, join_item s <$> githubItem_by_id (vd_issue v) s))
    <$> List.find (fun v => Nat.eqb (vd_assignee v) uid) (volunteerDetails s).

(** [prisma.volunteerDetail.create({data: {assignee: {connect: {id}},
    assignedOn, issue: {connect: {id: issue}}}})]. Connecting through an
    undefined id, or to a row that does not exist, is refused. *)
Definition volunteerDetail_create (assignee : nat) (on : string)
    (issue : option nat) (s : Store) : Store * Res VolunteerDetail :=
  match issue with
  | None => (s, Throw PrismaError)
  | Some i =>
      if existsb (fun u => Nat.eqb (u_id u) assignee) (users s)
         && bool_decide (is_Some (githubItem_by_id i s))
      then
        let v := {| vd_assignee := assignee; assignedOn := on; vd_issue := i |} in
        ({| repositories := repositories s; users := users s;
            githubItems := githubItems s; labels := labels s;
            volunteerDetails := volunteerDetails s ++ [v];
            nextId := nextId s |}, Ok v)
      else (s, Throw PrismaError)
  end.

(** ** The volunteer coordinator *)

(** [issue.data.assignees && issue.data.assignees.length > 0] *)
Definition has_assignees (a : option (list string)) : bool :=
  match a with
  | Some (_ :: _) => true
  | _ => false
  end.

(** The [for] loop of [assignIssueToVolunteer]: [continue] is the
    recursive call, [break] and the end of the list both leave the loop
    normally. *)
Fixpoint claimLoop (env : Env) (user : User) (items : list Candidate) : M unit :=
  match items with
  | [] => ret tt
  | item :: rest =>
      match c_githubItem item with
      | None => claimLoop env user rest
      | Some gh =>
          let owner := or_empty (repo_owner <$> j_repository gh) in
          let repo := or_empty (repo_name <$> j_repository gh) in
          let num := number (j_item gh) in
          let* token := getOctokitToken env owner repo in
          let octokit := "Bearer " ++ token in
          let* issue := remote (IssuesGet octokit owner repo num)
                               (issues_get env octokit owner repo num)
                               HttpError in
          if has_assignees issue then claimLoop env user rest else
          let userOctokit := "Bearer " ++ default "" (githubToken user) in
          let text := "I'm volunteering to work on this issue." in
          remote (CreateComment userOctokit owner repo num text)
                 (guard_ok (issues_createComment env userOctokit owner repo
                                                 num text))
                 HttpError ;;
          let assignees := [default "" (githubUsername user)] in
          remote (AddAssignees octokit owner repo num assignees)
                 (guard_ok (issues_addAssignees env octokit owner repo num
                                                assignees))
                 HttpError
      end
  end.

(** [items[0]]: reading a field of it raises when the list is empty. *)
Definition first_item (items : list Candidate) : M Candidate :=
  match items with
  | [] => throw TypeError
  | item :: _ => ret item
  end.

Definition assigned_text (first : Candidate) : SlackText :=
  let gh := c_githubItem first in
  let repository := gh ≫= j_repository in
  AssignedTo (number ∘ j_item <$> gh) (repo_url <$> repository)
             (repo_name <$> repository) (repo_owner <$> repository).

Definition volunteering_text (issue : option JoinedItem) : SlackText :=
  let repository := issue ≫= j_repository in
  OneIssueAtATime (repo_owner <$> repository) (repo_name <$> repository)
                  (number ∘ j_item <$> issue).

(** [assignIssueToVolunteer(items, user, client, user_id, channel_id)];
    [client] is the Slack client of the environment. *)
Definition assignIssueToVolunteer (env : Env) (items : list Candidate)
    (user : User) (user_id channel_id : string) : M (option SlackResponse) :=
  if negb (truthy (githubToken user)) || negb (truthy (githubUsername user))
  then
    let* r := slack_call env (PostEphemeral user_id channel_id
                                (ConnectGithubFirst user_id)) in
    ret (Some r)
  else
  let* volunteeringAt := query (volunteerDetail_findFirst (u_id user)) in
  match volunteeringAt with
  | Some (_, issue) =>
      let* r := slack_call env (PostEphemeral user_id channel_id
                                  (volunteering_text issue)) in
      ret (Some r)
  | None =>
      try_catch
        (claimLoop env user items ;;
         let* first := first_item items in
         prisma (volunteerDetail_create (u_id user) (now env)
                   (gi_id ∘ j_item <$> c_githubItem first)) ;;
         slack_call env (PostMessage user_id (assigned_text first)) ;;
         ret None)
        (fun e => emit (ConsoleLog e) ;; ret None)
  end.

(** ** Settled stores *)

(** The item of [it] is in the store, and updating it from [it] would
    write back what is already there. *)
Definition item_settled (it : PayloadItem) (s : Store) : Prop :=
  ∃ g, githubItems s !! node_id it = Some g ∧
    match actionItem g with
    | None => True
    | Some ai => updated_item g ai it (Some ai) = g ∧
                 list_to_set (label_rows (p_labels it)) ⊆ labels s
    end.

(** A store on which reconciling [p] has nothing left to write. *)
Definition settled (env : Env) (p : Payload) (s : Store) : Prop :=
  truthy (getProjectName env (html_url (p_repository p))) = true →
  (∃ r, repositories s !! html_url (p_repository p) = Some r ∧
        repo_name r = p_name (p_repository p) ∧
        repo_owner r = owner_login (p_repository p)) ∧
  ∀ it, or_else (p_issue p) (p_pull_request p) = Some it →
    is_maintainer (getMaintainers env (html_url (p_repository p)))
                  (user_login it) = false →
    is_Some (user_findFirst (user_login it) s) ∧ item_settled it s.

(** [findFirst] on the author login, then [create] when there is none. *)
Definition resolve_author (login : string) (s : Store) : Store * Res User :=
  match user_findFirst login s with
  | Some u => (s, Ok u)
  | None => user_create login s
  end.

(** ** A small project used in the examples *)

Module Demo.

Definition url : string := "https://github.com/acme/demo".

Definition carol : Maintainer :=
  {| m_id := "carol"; m_slack := "U0CAROL"; m_github := Some "carol" |}.

(** The project is monitored, carol maintains it, every remote call
    answers, and issue 7 already has an assignee on the remote. *)
Definition env : Env :=
  {| getProjectName := fun u => if String.eqb u url then Some "demo" else None;
     getMaintainers := fun u => if String.eqb u url then [Some carol] else [];
     installationToken := fun _ _ => Some "ghs_app";
     issues_get := fun _ _ _ n =>
       Some (Some (if Nat.eqb n 7 then ["bob"] else []));
     issues_createComment := fun _ _ _ _ _ => true;
     issues_addAssignees := fun _ _ _ _ _ => true;
     slack_post := fun _ => Some {| ts := "1700000000.000100" |};
     now := "2024-01-01T00:00:00Z" |}.

(** The same, with a remote that refuses every assignment. *)
Definition env_refusing : Env :=
  {| getProjectName := getProjectName env;
     getMaintainers := getMaintainers env;
     installationToken := installationToken env;
     issues_get := issues_get env;
     issues_createComment := issues_createComment env;
     issues_addAssignees := fun _ _ _ _ _ => false;
     slack_post := slack_post env;
     now := now env |}.

Definition empty : Store :=
  {| repositories := ∅; users := []; githubItems := ∅; labels := ∅;
     volunteerDetails := []; nextId := 1 |}.

(** The event of issue 7, node "I_1", opened by [login]. *)
Definition issue_by (login : string) (ls : list string) (t : string)
  : PayloadItem :=
  {| node_id := "I_1"; p_title := "Crash on start"; p_body := None;
     p_number := 7; user_login := login; p_labels := Some ls;
     created_at := "T1"; updated_at := t |}.

Definition event (login : string) (ls : list string) (t : string) : Payload :=
  {| p_issue := Some (issue_by login ls t); p_pull_request := None;
     p_repository := {| p_name := "demo"; owner_login := "acme";
                        html_url := url |} |}.

Definition repo : Repository :=
  {| repo_id := 1; repo_name := "demo"; repo_owner := "acme";
     repo_url := url |}.

Definition alice : User :=
  {| u_id := 2; githubUsername := Some "alice"; githubToken := None;
     slackId := None |}.

Definition workflow (i : nat) (st : Status) (r : option string)
    (ps : list nat) : ActionItem :=
  {| ai_id := i; ai_status := st; totalReplies := 0; resolvedAt := r;
     participants := ps |}.

Definition item (i : nat) (nid : string) (n : nat) (ls : list string)
    (ai : ActionItem) : GithubItem :=
  {| gi_id := i; nodeId := nid; title := "Crash on start"; body := "";
     number := n; state := st_open; type := ty_issue; createdAt := "T1";
     updatedAt := "T1"; authorId := Some 2; repositoryId := Some 1;
     labelsOnItems := ls; actionItem := Some ai |}.

(** The store after alice's issue was reconciled with labels A and B. *)
Definition item_AB : GithubItem :=
  item 3 "I_1" 7 ["A"; "B"] (workflow 4 st_open None []).

Definition store_AB : Store :=
  {| repositories := {[ url := repo ]}; users := [alice];
     githubItems := {[ "I_1" := item_AB ]};
     labels := {[ "A"; "B" ]}; volunteerDetails := []; nextId := 5 |}.

(** The same item, resolved at T0, with two participants. *)
Definition resolved_workflow : ActionItem :=
  workflow 4 st_closed (Some "T0") [2; 9].

Definition item_resolved : GithubItem :=
  item 3 "I_1" 7 ["A"; "B"] resolved_workflow.

Definition store_resolved : Store :=
  {| repositories := {[ url := repo ]}; users := [alice];
     githubItems := {[ "I_1" := item_resolved ]};
     labels := {[ "A"; "B" ]}; volunteerDetails := []; nextId := 5 |}.

Definition world (s : Store) : World := {| db := s; trace := [] |}.

(** A team: dave has linked his GitHub account, erin has not. Issue 7
    (X) has an assignee on the remote, issue 8 (Y) has none. *)
Definition dave : User :=
  {| u_id := 5; githubUsername := Some "dave";
     githubToken := Some "gho_dave"; slackId := Some "U0DAVE" |}.

Definition erin : User :=
  {| u_id := 6; githubUsername := Some "erin"; githubToken := None;
     slackId := Some "U0ERIN" |}.

Definition item_X : GithubItem := item_AB.

Definition item_Y : GithubItem :=
  item 7 "I_2" 8 [] (workflow 8 st_open None []).

Definition store_team : Store :=
  {| repositories := {[ url := repo ]}; users := [alice; dave; erin];
     githubItems := {[ "I_1" := item_X; "I_2" := item_Y ]};
     labels := {[ "A"; "B" ]}; volunteerDetails := []; nextId := 9 |}.

Definition claim (assignee issue : nat) : VolunteerDetail :=
  {| vd_assignee := assignee; assignedOn := "2023-12-24T00:00:00Z";
     vd_issue := issue |}.

(** The team once erin holds X and dave holds Y. *)
Definition store_claimed : Store :=
  {| repositories := {[ url := repo ]}; users := [alice; dave; erin];
     githubItems := {[ "I_1" := item_X; "I_2" := item_Y ]};
     labels := {[ "A"; "B" ]};
     volunteerDetails := [claim 6 3; claim 5 7]; nextId := 9 |}.

Definition candidate (g : GithubItem) (ai : ActionItem) : Candidate :=
  {| c_actionItem := ai;
     c_githubItem := Some {| j_item := g; j_repository := Some repo |} |}.

Definition candidate_X : Candidate :=
  candidate item_X (workflow 4 st_open None []).

Definition candidate_Y : Candidate :=
  candidate item_Y (workflow 8 st_open None []).

End Demo.

(** ** Referential integrity of label associations *)

(** Every label associated with a stored item is a row of the label
    table. *)
Definition labels_closed (s : Store) : Prop :=
  map_Forall (fun _ g => Forall (fun l => l ∈ labels s) (labelsOnItems g))
             (githubItems s).

(** ** Reading the trace of the coordinator *)

(** The calls that only read from the remote platform. *)
Definition is_read (e : Event) : bool :=
  match e with
  | GetInstallationToken _ _ | IssuesGet _ _ _ _ => true
  | _ => false
  end.

(** Candidates that carry a GitHub item. *)
Definition has_githubItem (c : Candidate) : bool :=
  match c_githubItem c with
  | Some _ => true
  | None => false
  end.

(** The comment the volunteer posts. *)
Definition volunteering_comment : string :=
  "I'm volunteering to work on this issue.".

(** The shape of what one run of the loop sends to the remote: reads,
    then nothing, or the volunteer's comment alone on a failed run, or the
    comment followed by the assignment on the same issue. *)
Definition loop_shape (user : User) (evs : list Event) (res : Res unit) : Prop :=
  ∃ reads writes,
    evs = (reads ++ writes)%list ∧
    forallb is_read reads = true ∧
    (writes = []
     ∨ ∃ auth owner repo num,
         (writes = [CreateComment
                      (String.append "Bearer " (default "" (githubToken user)))
                      owner repo num volunteering_comment]
          ∧ res = Throw HttpError)
         ∨ writes = [CreateComment
                       (String.append "Bearer " (default "" (githubToken user)))
                       owner repo num volunteering_comment;
                     AddAssignees auth owner repo num
                                  [default "" (githubUsername user)]]).

(** One turn of the loop on a candidate with item [gh]; [next] is the
    rest of the loop, taken on [continue]. *)
Definition claim_attempt (env : Env) (user : User) (gh : JoinedItem)
    (next : M unit) : M unit :=
  let owner := or_empty (repo_owner <$> j_repository gh) in
  let repo := or_empty (repo_name <$> j_repository gh) in
  let num := number (j_item gh) in
  let* token := getOctokitToken env owner repo in
  let octokit := "Bearer " ++ token in
  let* issue := remote (IssuesGet octokit owner repo num)
                       (issues_get env octokit owner repo num)
                       HttpError in
  if has_assignees issue then next else
  let userOctokit := "Bearer " ++ default "" (githubToken user) in
  let text := "I'm volunteering to work on this issue." in
  remote (CreateComment userOctokit owner repo num text)
         (guard_ok (issues_createComment env userOctokit owner repo
                                         num text))
         HttpError ;;
  let assignees := [default "" (githubUsername user)] in
  remote (AddAssignees octokit owner repo num assignees)
         (guard_ok (issues_addAssignees env octokit owner repo num
                                        assignees))
         HttpError.

(** ** The review-request handler and the display names *)

(** The global list of maintainers (./utils, outside the sources: a
    parameter) and the answers of the Slack and GitHub directories; a
    lookup answers [None], a post [false], when it throws. *)
Record Workspace := {
  MAINTAINERS : list Maintainer;
  chat_postMessage : string -> string -> bool;
  users_info : string -> option (option string * option string * option string);
  users_getByUsername : string -> string -> option (option string) }.

(** The payload of [pull_request.review_requested]: the login of each
    requested reviewer (a requested team has none), the page of the pull
    request, the url of the repository and the login of the sender. *)
Record ReviewPayload := {
  requested_reviewers : list (option string);
  pr_html_url : string;
  pr_repository_url : string;
  sender_login : string }.

(** What the handler sends out: a Slack message, or the console line for a
    reviewer nobody could be found for. *)
Inductive ReviewEvent :=
| ReviewMessage (channel text : string)
| NoUserFound (reviewer : option string).

(** [prisma.user.findFirst({where: {githubUsername: login}})] with a login
    that may be undefined; an undefined value puts no condition on the
    field. *)
Definition user_findFirst_where (login : option string) (s : Store)
  : option User :=
  match login with
  | Some l => user_findFirst l s
  | None => head (users s)
  end.

(** [MAINTAINERS.find((m) => m.github === login)?.slack ||
     (await prisma.user.findFirst(...))?.slackId] *)
Definition reviewer_contact (ws : Workspace) (s : Store)
    (login : option string) : option string :=
  let maintainer :=
    List.find (fun m => bool_decide (m_github m = login)) (MAINTAINERS ws) in
  if truthy (m_slack <$> maintainer) then m_slack <$> maintainer
  else user_findFirst_where login s ≫= slackId.

Definition review_text (project sender url : string) : string :=
  "You have been requested to review a pull request on " ++ project
  ++ " by " ++ sender ++ "." ++ String "010"%char url.

(** The handler's [for] loop over the requested reviewers. A refused post
    is not caught: it ends the loop. *)
Fixpoint notifyReviewers (ws : Workspace) (s : Store) (text : string)
    (reviewers : list (option string)) : list ReviewEvent * Res unit :=
  match reviewers with
  | [] => ([], Ok tt)
  | reviewer :: rest =>
      let user := reviewer_contact ws s reviewer in
      if truthy user then
        if chat_postMessage ws (default "" user) text then
          let '(evs, res) := notifyReviewers ws s text rest in
          (ReviewMessage (default "" user) text :: evs, res)
        else ([ReviewMessage (default "" user) text], Throw SlackError)
      else
        let '(evs, res) := notifyReviewers ws s text rest in
        (NoUserFound reviewer :: evs, res)
  end.

(** The handler of [pull_request.review_requested]. It reads the store
    and writes to Slack and the console only, so it is embedded as a
    function from the store to what it sends out. *)
Definition reviewRequested (env : Env) (ws : Workspace) (s : Store)
    (payload : ReviewPayload) : list ReviewEvent * Res unit :=
  let project := getProjectName env (pr_repository_url payload) in
  if negb (truthy project) then ([], Ok tt) else
  notifyReviewers ws s
    (review_text (default "" project) (sender_login payload)
                 (pr_html_url payload))
    (requested_reviewers payload).

(** What the handler does for one reviewer. *)
Definition reviewer_event (ws : Workspace) (s : Store) (text : string)
    (reviewer : option string) : ReviewEvent :=
  if truthy (reviewer_contact ws s reviewer)
  then ReviewMessage (default "" (reviewer_contact ws s reviewer)) text
  else NoUserFound reviewer.

(** The reviewer gives the handler no reason to stop: nobody to write to,
    or a post that goes through. *)
Definition reviewer_passes (ws : Workspace) (s : Store) (text : string)
    (reviewer : option string) : bool :=
  negb (truthy (reviewer_contact ws s reviewer))
  || chat_postMessage ws (default "" (reviewer_contact ws s reviewer)) text.

(** [a || b || c || ""] on optional strings. *)
Definition first_truthy (l : list (option string)) : string :=
  default "" (List.find truthy l ≫= id).

(** [getDisplayName({owner, name, slackId, github})]. The two directory
    lookups only read; they show in the result. *)
Definition getDisplayName (env : Env) (ws : Workspace) (owner name : string)
    (slackId github : option string) : M string :=
  let* token := getOctokitToken env owner name in
  let octokit := "Bearer " ++ token in
  let maintainer :=
    List.find (fun m => bool_decide (m_github m = github)
                        || bool_decide (Some (m_slack m) = slackId))
              (MAINTAINERS ws) in
  match maintainer with
  | Some m => ret (m_id m)
  | None =>
      if truthy slackId then
        match users_info ws (default "" slackId) with
        | Some (nm, real_name, display_name) =>
            ret (first_truthy [nm; real_name; display_name])
        | None => throw SlackError
        end
      else
        match users_getByUsername ws octokit (default "" github) with
        | Some nm => ret (or_empty nm)
        | None => throw HttpError
        end
  end.

(** ** Further scenarios *)

Module Scenario.

(** A delivery that carries neither an issue nor a pull request. *)
Definition bare_event : Payload :=
  {| p_issue := None; p_pull_request := None;
     p_repository := {| p_name := "demo"; owner_login := "acme";
                        html_url := Demo.url |} |}.

(** A first issue by bob, who is not yet known. *)
Definition issue_by_bob : PayloadItem :=
  {| node_id := "I_9"; p_title := "Typo in README"; p_body := Some "see title";
     p_number := 12; user_login := "bob"; p_labels := Some ["docs"];
     created_at := "T5"; updated_at := "T6" |}.

Definition event_by_bob : Payload :=
  {| p_issue := Some issue_by_bob; p_pull_request := None;
     p_repository := {| p_name := "demo"; owner_login := "acme";
                        html_url := Demo.url |} |}.

(** A remote on which the app cannot get an installation token. *)
Definition env_down : Env :=
  {| getProjectName := getProjectName Demo.env;
     getMaintainers := getMaintainers Demo.env;
     installationToken := fun _ _ => None;
     issues_get := issues_get Demo.env;
     issues_createComment := issues_createComment Demo.env;
     issues_addAssignees := issues_addAssignees Demo.env;
     slack_post := slack_post Demo.env;
     now := now Demo.env |}.

(** A candidate that comes from a Slack message: it has no GitHub item. *)
Definition slack_candidate : Candidate :=
  {| c_actionItem := Demo.workflow 20 st_open None [];
     c_githubItem := None |}.

(** A candidate whose item lost its repository. *)
Definition orphan_candidate : Candidate :=
  {| c_actionItem := Demo.workflow 8 st_open None [];
     c_githubItem := Some {| j_item := Demo.item_Y; j_repository := None |} |}.

(** A workspace where carol is the maintainer, every directory lookup
    answers, and Slack refuses to deliver to erin. *)
Definition workspace : Workspace :=
  {| MAINTAINERS := [Demo.carol];
     chat_postMessage := fun channel _ => negb (String.eqb channel "U0ERIN");
     users_info := fun _ => Some (None, Some "Dave D.", None);
     users_getByUsername := fun _ _ => Some (Some "Dave") |}.

Definition review (reviewers : list (option string)) : ReviewPayload :=
  {| requested_reviewers := reviewers;
     pr_html_url := "https://github.com/acme/demo/pull/5";
     pr_repository_url := Demo.url;
     sender_login := "bob" |}.

Definition review_message : string :=
  review_text "demo" "bob" "https://github.com/acme/demo/pull/5".

End Scenario.

(** * Properties *)

(** ** Store operations *)

Lemma find_app_fresh {A} (P : A -> bool) (l : list A) (x : A) :
  List.find P l = None -> P x = true -> List.find P (l ++ [x]) = Some x.
Proof.
  intros Hl Hx. induction l as [|a l IH]; simpl in *.
  - by rewrite Hx.
  - destruct (P a); [done | by apply IH].
Qed.

Lemma Store_eta (s : Store) :
  {| repositories := repositories s; users := users s;
     githubItems := githubItems s; labels := labels s;
     volunteerDetails := volunteerDetails s; nextId := nextId s |} = s.
Proof. by destruct s. Qed.

Lemma repository_upsert_settled url name owner s r :
  repositories s !! url = Some r → repo_name r = name → repo_owner r = owner →
  repository_upsert url name owner s = (s, Ok r).
Proof.
  intros Hr <- <-. unfold repository_upsert. rewrite Hr.
  destruct r; cbn. rewrite insert_id by done. by rewrite Store_eta.
Qed.

Lemma githubItem_upsert_settled author dbRepo it s g ai :
  githubItems s !! node_id it = Some g → actionItem g = Some ai →
  updated_item g ai it (Some ai) = g →
  list_to_set (label_rows (p_labels it)) ⊆ labels s →
  githubItem_upsert author dbRepo it (actionItem_findFirst (node_id it) s) s
  = (s, Ok g).
Proof.
  intros Hg Hai Hup Hl. unfold githubItem_upsert, actionItem_findFirst.
  rewrite Hg. cbn. rewrite Hai, Hup. rewrite insert_id by done.
  rewrite (union_comm_L (labels s)), (subseteq_union_1_L _ _ Hl).
  by rewrite Store_eta.
Qed.

Lemma githubItem_upsert_refused author dbRepo it found s g :
  githubItems s !! node_id it = Some g → actionItem g = None →
  githubItem_upsert author dbRepo it found s = (s, Throw PrismaError).
Proof. intros Hg Hai. unfold githubItem_upsert. by rewrite Hg, Hai. Qed.

Lemma user_findFirst_created login s :
  user_findFirst login s = None →
  is_Some (user_findFirst login (fst (user_create login s))).
Proof.
  unfold user_findFirst, user_create. cbn. intros H. eexists.
  apply find_app_fresh; [done|]. cbn. by apply bool_decide_eq_true_2.
Qed.

(** ** The reconciler on a settled store *)

Lemma settled_fixed env p w :
  settled env p (db w) → db (fst (createGithubItem env p w)) = db w.
Proof.
  intros Hs. destruct w as [s t]. cbn in Hs. unfold createGithubItem.
  destruct (truthy (getProjectName env (html_url (p_repository p)))) eqn:Hp;
    cbn [negb]; [|done].
  destruct (Hs Hp) as [(r & Hr & Hn & Ho) Hit]. clear Hs.
  unfold bind at 1. unfold prisma at 1. cbn [db trace].
  rewrite (repository_upsert_settled _ _ _ _ _ Hr Hn Ho).
  destruct (or_else (p_issue p) (p_pull_request p)) as [it|]; [|done].
  destruct (is_maintainer _ _) eqn:Hm; [done|].
  destruct (Hit it eq_refl Hm) as [[u Hu] (g & Hg & Hai)].
  unfold bind, query. cbn [db trace]. rewrite Hu. cbn [ret].
  unfold prisma. cbn [db trace].
  destruct (actionItem g) as [ai|] eqn:Ha.
  - destruct Hai as [Hup Hl].
    rewrite (githubItem_upsert_settled _ _ _ _ _ _ Hg Ha Hup Hl).
    rewrite Ha. done.
  - by rewrite (githubItem_upsert_refused _ _ _ _ _ _ Hg Ha).
Qed.

Lemma updated_item_twice g ai it found ai' :
  actionItem (updated_item g ai it found) = Some ai' →
  status_of found = status_of (Some ai) →
  updated_item (updated_item g ai it found) ai' it (Some ai')
  = updated_item g ai it found.
Proof.
  intros [= <-] Hst. unfold updated_item, status_of in *. cbn in *.
  by rewrite Hst.
Qed.

Lemma repository_upsert_spec url name owner s :
  ∃ s' r, repository_upsert url name owner s = (s', Ok r) ∧
    repositories s' = <[url := r]> (repositories s) ∧
    repo_name r = name ∧ repo_owner r = owner ∧
    users s' = users s ∧ githubItems s' = githubItems s ∧
    labels s' = labels s ∧ volunteerDetails s' = volunteerDetails s.
Proof.
  unfold repository_upsert.
  destruct (repositories s !! url); eexists _, _; split_and!; done.
Qed.

Lemma githubItem_upsert_spec author dbRepo it s :
  ∃ s' r, githubItem_upsert author dbRepo it
            (actionItem_findFirst (node_id it) s) s = (s', r) ∧
    repositories s' = repositories s ∧ users s' = users s ∧
    volunteerDetails s' = volunteerDetails s ∧ item_settled it s'.
Proof.
  unfold githubItem_upsert, actionItem_findFirst, item_settled.
  destruct (githubItems s !! node_id it) as [g|] eqn:Hg; cbn.
  - destruct (actionItem g) as [ai|] eqn:Hai.
    + eexists _, _. split_and!; try done. cbn. eexists.
      rewrite lookup_insert_eq. split; [done|]. cbn. split.
      * apply updated_item_twice; done.
      * set_solver.
    + eexists _, _. split_and!; try done. exists g. by rewrite Hai.
  - eexists _, _. split_and!; try done. cbn. eexists.
    rewrite lookup_insert_eq. split; [done|]. cbn. split; [done|set_solver].
Qed.

Lemma resolve_author_spec login s :
  ∃ s' u, resolve_author login s = (s', Ok u) ∧
    is_Some (user_findFirst login s') ∧
    repositories s' = repositories s ∧ githubItems s' = githubItems s ∧
    labels s' = labels s ∧ volunteerDetails s' = volunteerDetails s.
Proof.
  unfold resolve_author.
  destruct (user_findFirst login s) as [u|] eqn:Hu.
  - exists s, u. rewrite Hu. split_and!; done.
  - eexists _, _. split; [done|]. split_and!; try done.
    by apply user_findFirst_created.
Qed.

(** The three writes of a reconciliation that reaches the item upsert. *)
Lemma createGithubItem_sync env p w it :
  truthy (getProjectName env (html_url (p_repository p))) = true →
  or_else (p_issue p) (p_pull_request p) = Some it →
  is_maintainer (getMaintainers env (html_url (p_repository p)))
                (user_login it) = false →
  ∃ s1 r s2 author s3 res,
    repository_upsert (html_url (p_repository p)) (p_name (p_repository p))
                      (owner_login (p_repository p)) (db w) = (s1, Ok r) ∧
    resolve_author (user_login it) s1 = (s2, Ok author) ∧
    githubItem_upsert author r it (actionItem_findFirst (node_id it) s2) s2
    = (s3, res) ∧
    githubItems s2 = githubItems (db w) ∧
    db (fst (createGithubItem env p w)) = s3.
Proof.
  intros Hp Hit Hm. destruct w as [s t].
  unfold createGithubItem. rewrite Hp, Hit, Hm. cbn [negb db].
  destruct (repository_upsert_spec (html_url (p_repository p))
              (p_name (p_repository p)) (owner_login (p_repository p)) s)
    as (s1 & r & Hr & _ & _ & _ & _ & Hg1 & _).
  destruct (resolve_author_spec (user_login it) s1)
    as (s2 & a & Ha & _ & _ & Hg2 & _).
  destruct (githubItem_upsert a r it (actionItem_findFirst (node_id it) s2) s2)
    as [s3 res] eqn:Hup.
  exists s1, r, s2, a, s3, res. split_and!; try done; [congruence|].
  unfold bind, prisma, query. cbn [db trace]. rewrite Hr. cbn [db trace].
  unfold resolve_author in Ha.
  destruct (user_findFirst (user_login it) s1) as [u|].
  - injection Ha as <- <-. cbn [ret db trace]. rewrite Hup.
    destruct res as [g|e]; [|done]. cbn. by destruct (actionItem g).
  - cbn [db trace]. rewrite Ha. cbn [db trace]. rewrite Hup.
    destruct res as [g|e]; [|done]. cbn. by destruct (actionItem g).
Qed.

(** Without an item, or for a maintainer's item, only the repository is
    upserted. *)
Lemma createGithubItem_repository_only env p w :
  truthy (getProjectName env (html_url (p_repository p))) = true →
  match or_else (p_issue p) (p_pull_request p) with
  | Some it => is_maintainer (getMaintainers env (html_url (p_repository p)))
                             (user_login it) = true
  | None => True
  end →
  db (fst (createGithubItem env p w))
  = fst (repository_upsert (html_url (p_repository p))
           (p_name (p_repository p)) (owner_login (p_repository p)) (db w)).
Proof.
  intros Hp Hit. destruct w as [s t]. unfold createGithubItem.
  rewrite Hp. cbn [negb db]. unfold bind, prisma. cbn [db trace].
  destruct (repository_upsert _ _ _ s) as [s1 [r|e]]; [|done].
  destruct (or_else (p_issue p) (p_pull_request p)) as [it|]; [|done].
  by rewrite Hit.
Qed.

Lemma reconcile_settles env p w :
  settled env p (db (fst (createGithubItem env p w))).
Proof.
  intros Hp.
  destruct (repository_upsert_spec (html_url (p_repository p))
              (p_name (p_repository p)) (owner_login (p_repository p)) (db w))
    as (s1 & r & Hr & Hrs & Hn & Ho & _).
  assert (Hrepo : repositories s1 !! html_url (p_repository p) = Some r)
    by (by rewrite Hrs, lookup_insert_eq).
  destruct (or_else (p_issue p) (p_pull_request p)) as [it|] eqn:Hit.
  2:{ rewrite createGithubItem_repository_only by (by rewrite ?Hit).
      rewrite Hr. split; [by exists r|done]. }
  destruct (is_maintainer (getMaintainers env (html_url (p_repository p)))
                          (user_login it)) eqn:Hm.
  { rewrite createGithubItem_repository_only by (by rewrite ?Hit).
    rewrite Hr. split; [by exists r|]. intros it' [= <-]. congruence. }
  destruct (createGithubItem_sync env p w it Hp Hit Hm)
    as (s1' & r' & s2 & a & s3 & res & Hr' & Ha & Hup & _ & ->).
  rewrite Hr in Hr'. injection Hr' as <- <-.
  destruct (resolve_author_spec (user_login it) s1)
    as (s2' & a' & Ha' & Hfound & Hr2 & _).
  rewrite Ha in Ha'. injection Ha' as <- <-.
  destruct (githubItem_upsert_spec a r it s2)
    as (s3' & res' & Hup' & Hr3 & Hu3 & _ & Hset).
  rewrite Hup in Hup'. injection Hup' as <- <-.
  split.
  - exists r. by rewrite Hr3, Hr2.
  - intros it' [= <-] _. split; [|done].
    unfold user_findFirst in *. by rewrite Hu3.
Qed.


(** The update branch rewrites the stored item from the payload. *)
Lemma createGithubItem_update env p w it g ai :
  truthy (getProjectName env (html_url (p_repository p))) = true →
  or_else (p_issue p) (p_pull_request p) = Some it →
  is_maintainer (getMaintainers env (html_url (p_repository p)))
                (user_login it) = false →
  githubItems (db w) !! node_id it = Some g →
  actionItem g = Some ai →
  githubItems (db (fst (createGithubItem env p w))) !! node_id it
  = Some (updated_item g ai it (Some ai)).
Proof.
  intros Hp Hit Hm Hg Hai.
  destruct (createGithubItem_sync env p w it Hp Hit Hm)
    as (s1 & r & s2 & a & s3 & res & _ & _ & Hup & Hg2 & ->).
  unfold githubItem_upsert, actionItem_findFirst in Hup.
  rewrite Hg2, Hg in Hup. cbn in Hup. rewrite Hai in Hup.
  injection Hup as <- _. cbn. by rewrite lookup_insert_eq.
Qed.

(** The create branch stores a new item built from the payload. *)
Lemma createGithubItem_create env p w it :
  truthy (getProjectName env (html_url (p_repository p))) = true →
  or_else (p_issue p) (p_pull_request p) = Some it →
  is_maintainer (getMaintainers env (html_url (p_repository p)))
                (user_login it) = false →
  githubItems (db w) !! node_id it = None →
  ∃ author dbRepo fresh,
    githubItems (db (fst (createGithubItem env p w))) !! node_id it
    = Some (created_item author dbRepo it fresh).
Proof.
  intros Hp Hit Hm Hg.
  destruct (createGithubItem_sync env p w it Hp Hit Hm)
    as (s1 & r & s2 & a & s3 & res & _ & _ & Hup & Hg2 & ->).
  unfold githubItem_upsert in Hup. rewrite Hg2, Hg in Hup.
  injection Hup as <- _. cbn. exists a, r, (nextId s2).
  by rewrite lookup_insert_eq.
Qed.

Lemma startsWith_I_ (s : string) :
  startsWith s "I_" = true ↔ ∃ rest, s = "I_" ++ rest.
Proof.
  unfold startsWith. split.
  - destruct s as [|a [|b rest]]; cbn [String.prefix]; try done.
    + by destruct (Ascii.ascii_dec "I"%char a).
    + destruct (Ascii.ascii_dec "I"%char a) as [<-|]; [|done].
      destruct (Ascii.ascii_dec "_"%char b) as [<-|]; [|done].
      intros _. by exists rest.
  - intros [rest ->]. cbn [String.prefix String.append].
    destruct (Ascii.ascii_dec "I"%char "I"%char); [|done].
    destruct (Ascii.ascii_dec "_"%char "_"%char); [|done].
    by destruct rest.
Qed.

(** ** The item reconciler: claims *)

(** C4. Reconciliation is idempotent: reconciling a payload a second time
    leaves the whole store, hence the items, their workflow records and
    their label associations, as the first reconciliation left it. *)
Theorem reconcile_idempotent env p w :
  db (fst (createGithubItem env p (fst (createGithubItem env p w))))
  = db (fst (createGithubItem env p w)).
Proof. apply settled_fixed, reconcile_settles. Qed.

(** C3, as stated, fails: the event of a maintainer's issue on a
    monitored repository that is not yet stored creates its Repository
    record. *)
Lemma maintainer_event_upserts_repository :
  truthy (getProjectName Demo.env Demo.url) = true ∧
  is_maintainer (getMaintainers Demo.env Demo.url) "carol" = true ∧
  repositories Demo.empty !! Demo.url = None ∧
  repositories
    (db (fst (createGithubItem Demo.env (Demo.event "carol" ["bug"] "T1")
                               (Demo.world Demo.empty)))) !! Demo.url
  = Some Demo.repo.
Proof. vm_compute. done. Qed.

(** C3, amended. The event of a maintainer's item on a monitored
    repository writes no item, user, label or claim; the Repository
    records change by the upsert of the payload's repository alone (no
    other url is touched), and not at all when that repository is already
    stored under the payload's name and owner. *)
Theorem maintainer_suppression env p w it :
  truthy (getProjectName env (html_url (p_repository p))) = true →
  or_else (p_issue p) (p_pull_request p) = Some it →
  is_maintainer (getMaintainers env (html_url (p_repository p)))
                (user_login it) = true →
  githubItems (db (fst (createGithubItem env p w))) = githubItems (db w) ∧
  users (db (fst (createGithubItem env p w))) = users (db w) ∧
  labels (db (fst (createGithubItem env p w))) = labels (db w) ∧
  volunteerDetails (db (fst (createGithubItem env p w)))
  = volunteerDetails (db w) ∧
  (∃ r, repositories (db (fst (createGithubItem env p w)))
        = <[html_url (p_repository p) := r]> (repositories (db w)) ∧
        repo_name r = p_name (p_repository p) ∧
        repo_owner r = owner_login (p_repository p)) ∧
  (∀ u, u ≠ html_url (p_repository p) →
        repositories (db (fst (createGithubItem env p w))) !! u
        = repositories (db w) !! u) ∧
  (∀ r0, repositories (db w) !! html_url (p_repository p) = Some r0 →
         repo_name r0 = p_name (p_repository p) →
         repo_owner r0 = owner_login (p_repository p) →
         db (fst (createGithubItem env p w)) = db w).
Proof.
  intros Hp Hit Hm.
  rewrite createGithubItem_repository_only by (by rewrite ?Hit).
  destruct (repository_upsert_spec (html_url (p_repository p))
              (p_name (p_repository p)) (owner_login (p_repository p)) (db w))
    as (s1 & r & Hr & Hrs & Hn & Ho & Hu & Hg & Hl & Hv).
  rewrite Hr. cbn [fst]. split_and!; try done.
  - by exists r.
  - intros u Hne. by rewrite Hrs, lookup_insert_ne.
  - intros r0 Hr0 Hn0 Ho0.
    rewrite (repository_upsert_settled _ _ _ _ _ Hr0 Hn0 Ho0) in Hr.
    by injection Hr as <- _.
Qed.

Lemma maintainer_suppression_witness :
  githubItems
    (db (fst (createGithubItem Demo.env (Demo.event "carol" ["bug"] "T1")
                               (Demo.world Demo.empty)))) = ∅.
Proof.
  apply (maintainer_suppression Demo.env (Demo.event "carol" ["bug"] "T1")
           (Demo.world Demo.empty) (Demo.issue_by "carol" ["bug"] "T1"));
    reflexivity.
Defined.

(** C5. When an existing item is updated, its label associations are
    replaced by exactly the labels of the incoming payload. *)
Theorem labels_replaced_on_update env p w it g ai :
  truthy (getProjectName env (html_url (p_repository p))) = true →
  or_else (p_issue p) (p_pull_request p) = Some it →
  is_maintainer (getMaintainers env (html_url (p_repository p)))
                (user_login it) = false →
  githubItems (db w) !! node_id it = Some g →
  actionItem g = Some ai →
  ∃ g', githubItems (db (fst (createGithubItem env p w))) !! node_id it
        = Some g' ∧
        labelsOnItems g' = label_rows (p_labels it).
Proof.
  intros Hp Hit Hm Hg Hai. eexists. split.
  - by apply createGithubItem_update.
  - done.
Qed.

(** Labels A, B reconciled, then B, C: exactly B, C stay associated. *)
Lemma labels_replaced_on_update_witness :
  ∃ g', githubItems
          (db (fst (createGithubItem Demo.env
                      (Demo.event "alice" ["B"; "C"] "T2")
                      (Demo.world Demo.store_AB)))) !! "I_1" = Some g' ∧
        labelsOnItems g' = ["B"; "C"].
Proof.
  apply (labels_replaced_on_update Demo.env
           (Demo.event "alice" ["B"; "C"] "T2") (Demo.world Demo.store_AB)
           (Demo.issue_by "alice" ["B"; "C"] "T2") Demo.item_AB
           (Demo.workflow 4 st_open None []));
    reflexivity.
Defined.

(** C8. When an existing item is updated, its workflow record is closed
    exactly when its resolution timestamp was set before, open otherwise,
    and its participant list is emptied. *)
Theorem workflow_status_on_update env p w it g ai :
  truthy (getProjectName env (html_url (p_repository p))) = true →
  or_else (p_issue p) (p_pull_request p) = Some it →
  is_maintainer (getMaintainers env (html_url (p_repository p)))
                (user_login it) = false →
  githubItems (db w) !! node_id it = Some g →
  actionItem g = Some ai →
  ∃ g' ai',
    githubItems (db (fst (createGithubItem env p w))) !! node_id it
    = Some g' ∧
    actionItem g' = Some ai' ∧
    (ai_status ai' = st_closed ↔ is_Some (resolvedAt ai)) ∧
    (ai_status ai' = st_open ↔ resolvedAt ai = None) ∧
    participants ai' = [] ∧
    ai_id ai' = ai_id ai ∧ resolvedAt ai' = resolvedAt ai.
Proof.
  intros Hp Hit Hm Hg Hai. eexists _, _. split.
  - by apply createGithubItem_update.
  - cbn. split; [done|]. unfold status_of. cbn.
    destruct (resolvedAt ai); split_and!; done.
Qed.

Lemma workflow_status_on_update_witness :
  ∃ g' ai',
    githubItems
      (db (fst (createGithubItem Demo.env (Demo.event "alice" ["A"; "B"] "T2")
                                 (Demo.world Demo.store_resolved)))) !! "I_1"
    = Some g' ∧
    actionItem g' = Some ai' ∧
    (ai_status ai' = st_closed ↔ is_Some (Some "T0")) ∧
    (ai_status ai' = st_open ↔ Some "T0" = None) ∧
    participants ai' = [] ∧
    ai_id ai' = 4 ∧ resolvedAt ai' = Some "T0".
Proof.
  apply (workflow_status_on_update Demo.env
           (Demo.event "alice" ["A"; "B"] "T2")
           (Demo.world Demo.store_resolved)
           (Demo.issue_by "alice" ["A"; "B"] "T2") Demo.item_resolved
           Demo.resolved_workflow);
    reflexivity.
Defined.

(** C9. The item created by a reconciliation is an issue exactly when its
    node identifier begins with "I_", and a pull request otherwise. *)
Theorem kind_derivation env p w it :
  truthy (getProjectName env (html_url (p_repository p))) = true →
  or_else (p_issue p) (p_pull_request p) = Some it →
  is_maintainer (getMaintainers env (html_url (p_repository p)))
                (user_login it) = false →
  githubItems (db w) !! node_id it = None →
  ∃ g', githubItems (db (fst (createGithubItem env p w))) !! node_id it
        = Some g' ∧
        nodeId g' = node_id it ∧
        (type g' = ty_issue ↔ ∃ rest, node_id it = "I_" ++ rest) ∧
        (type g' = ty_pull_request ↔ ¬ ∃ rest, node_id it = "I_" ++ rest).
Proof.
  intros Hp Hit Hm Hg.
  destruct (createGithubItem_create env p w it Hp Hit Hm Hg)
    as (a & r & n & Hc).
  eexists. split; [exact Hc|]. cbn. split; [done|].
  unfold type_of. rewrite <- startsWith_I_.
  destruct (startsWith (node_id it) "I_"); split; split; done.
Qed.

Lemma kind_derivation_witness :
  ∃ g', githubItems
          (db (fst (createGithubItem Demo.env (Demo.event "alice" ["A"] "T1")
                                     (Demo.world Demo.empty)))) !! "I_1"
        = Some g' ∧
        nodeId g' = "I_1" ∧
        (type g' = ty_issue ↔ ∃ rest, "I_1" = "I_" ++ rest) ∧
        (type g' = ty_pull_request ↔ ¬ ∃ rest, "I_1" = "I_" ++ rest).
Proof.
  apply (kind_derivation Demo.env (Demo.event "alice" ["A"] "T1")
           (Demo.world Demo.empty) (Demo.issue_by "alice" ["A"] "T1"));
    reflexivity.
Defined.

(** ** The volunteer coordinator *)

(** The loop only talks to the remote: the store is not written. *)
Lemma claimLoop_db env user items w :
  db (fst (claimLoop env user items w)) = db w.
Proof.
  revert w. induction items as [|item rest IH]; intros w; [done|].
  cbn [claimLoop]. destruct (c_githubItem item) as [gh|]; [|apply IH].
  unfold getOctokitToken, remote, bind, emit, ret, throw.
  repeat match goal with
         | |- context [match ?o with Some _ => _ | None => _ end] =>
             destruct o; cbn
         | |- context [if ?b then _ else _] => destruct b; cbn
         | |- context [let (_, _) := ?x in _] => destruct x; cbn
         end; rewrite ?IH; try done.
Qed.

(** What the caller gets back from a Slack call. *)
Lemma slack_call_run env c w :
  slack_call env c w
  = ({| db := db w; trace := trace w ++ [Slack c] |},
     match slack_post env c with
     | Some r => Ok r
     | None => Throw SlackError
     end).
Proof.
  unfold slack_call, remote, bind, emit, ret, throw.
  by destruct (slack_post env c).
Qed.

Lemma volunteerDetail_findFirst_Some uid s v issue :
  volunteerDetail_findFirst uid s = Some (v, issue) →
  vd_assignee v = uid ∧ In v (volunteerDetails s) ∧
  issue = join_item s <$> githubItem_by_id (vd_issue v) s.
Proof.
  unfold volunteerDetail_findFirst. intros H.
  destruct (List.find _ (volunteerDetails s)) as [v'|] eqn:Hf; [|done].
  injection H as <- <-. apply find_some in Hf as [Hin Heq].
  split_and!; try done. by apply Nat.eqb_eq.
Qed.

(** An eligible volunteer: the two guards are passed. *)
Lemma assign_eligible env items user user_id channel_id w :
  truthy (githubToken user) = true →
  truthy (githubUsername user) = true →
  volunteerDetail_findFirst (u_id user) (db w) = None →
  assignIssueToVolunteer env items user user_id channel_id w
  = try_catch
      (claimLoop env user items ;;
       let* first := first_item items in
       prisma (volunteerDetail_create (u_id user) (now env)
                 (gi_id ∘ j_item <$> c_githubItem first)) ;;
       slack_call env (PostMessage user_id (assigned_text first)) ;;
       ret None)
      (fun e => emit (ConsoleLog e) ;; ret None) w.
Proof.
  intros Ht Hu Hv. unfold assignIssueToVolunteer. rewrite Ht, Hu. cbn [negb orb].
  unfold bind at 1. unfold query at 1. cbn. by rewrite Hv.
Qed.

Lemma try_catch_bind_throw {A B} (m : M A) (k : A -> M B) h w e :
  snd (m w) = Throw e → try_catch (bind m k) h w = h e (fst (m w)).
Proof.
  unfold try_catch, bind. destruct (m w) as [w' r]. cbn. by intros ->.
Qed.

Lemma try_catch_bind_ok {A B} (m : M A) (k : A -> M B) h w w' a :
  m w = (w', Ok a) → try_catch (bind m k) h w = try_catch (k a) h w'.
Proof. unfold try_catch, bind. by intros ->. Qed.

(** An exception raised in the loop is caught: nothing is written. *)
Lemma loop_failure_writes_nothing env items user user_id channel_id w e :
  truthy (githubToken user) = true →
  truthy (githubUsername user) = true →
  volunteerDetail_findFirst (u_id user) (db w) = None →
  snd (claimLoop env user items w) = Throw e →
  db (fst (assignIssueToVolunteer env items user user_id channel_id w)) = db w
  ∧ snd (assignIssueToVolunteer env items user user_id channel_id w) = Ok None.
Proof.
  intros Ht Hu Hv Hl. rewrite assign_eligible by done.
  rewrite (try_catch_bind_throw _ _ _ _ _ Hl). cbn.
  split; [apply claimLoop_db|done].
Qed.

(** A claim, when one is written, is for the first candidate. *)
Lemma claim_is_for_first_candidate env items user user_id channel_id w :
  truthy (githubToken user) = true →
  truthy (githubUsername user) = true →
  volunteerDetail_findFirst (u_id user) (db w) = None →
  db (fst (assignIssueToVolunteer env items user user_id channel_id w)) = db w
  ∨ ∃ first rest gh,
      items = first :: rest ∧ c_githubItem first = Some gh ∧
      volunteerDetails
        (db (fst (assignIssueToVolunteer env items user user_id channel_id w)))
      = (volunteerDetails (db w)
         ++ [{| vd_assignee := u_id user; assignedOn := now env;
                vd_issue := gi_id (j_item gh) |}])%list.
Proof.
  intros Ht Hu Hv. rewrite assign_eligible by done.
  pose proof (claimLoop_db env user items w) as Hdb.
  destruct (claimLoop env user items w) as [w' [[]|e]] eqn:Hl; cbn in Hdb.
  2:{ left. rewrite (try_catch_bind_throw _ _ _ _ e) by (by rewrite Hl).
      by rewrite Hl. }
  rewrite (try_catch_bind_ok _ _ _ _ _ _ Hl). clear Hl.
  destruct items as [|first rest]; [by left|].
  unfold try_catch, bind, first_item, ret, prisma, volunteerDetail_create,
    slack_call, remote, emit, throw.
  destruct (c_githubItem first) as [gh|] eqn:Hgh; cbn; [|by left].
  destruct (existsb _ _ && _); cbn; [|by left].
  right. exists first, rest, gh. split_and!; try done.
  rewrite Hdb. by destruct (slack_post env _).
Qed.

(** ** The volunteer coordinator: claims *)

(** C7. A volunteer without a linked username or without an access token
    gets the request to link the account; the store is untouched and the
    only call made is that one Slack message. *)
Theorem needs_identity_link env items user user_id channel_id w :
  truthy (githubToken user) = false ∨ truthy (githubUsername user) = false →
  assignIssueToVolunteer env items user user_id channel_id w
  = ({| db := db w;
        trace := trace w ++ [Slack (PostEphemeral user_id channel_id
                                      (ConnectGithubFirst user_id))] |},
     match slack_post env (PostEphemeral user_id channel_id
                             (ConnectGithubFirst user_id)) with
     | Some r => Ok (Some r)
     | None => Throw SlackError
     end).
Proof.
  intros H. unfold assignIssueToVolunteer.
  assert (negb (truthy (githubToken user))
          || negb (truthy (githubUsername user)) = true) as ->.
  { destruct H as [-> | ->]; [done|]. by rewrite orb_true_r. }
  unfold bind. rewrite slack_call_run.
  by destruct (slack_post env _).
Qed.

Lemma needs_identity_link_witness :
  assignIssueToVolunteer Demo.env [Demo.candidate_Y] Demo.erin
                         "U0ERIN" "C0HELP" (Demo.world Demo.store_team)
  = ({| db := Demo.store_team;
        trace := [Slack (PostEphemeral "U0ERIN" "C0HELP"
                           (ConnectGithubFirst "U0ERIN"))] |},
     Ok (Some {| ts := "1700000000.000100" |})).
Proof.
  apply (needs_identity_link Demo.env [Demo.candidate_Y] Demo.erin
           "U0ERIN" "C0HELP" (Demo.world Demo.store_team)).
  left. reflexivity.
Defined.

(** C6, as stated, fails: erin holds a claim but has no access token, and
    is asked to link her account instead of being told about her claim. *)
Lemma unlinked_claimant_is_asked_to_link :
  volunteerDetail_findFirst (u_id Demo.erin) Demo.store_claimed
  = Some (Demo.claim 6 3,
          Some {| j_item := Demo.item_X; j_repository := Some Demo.repo |}) ∧
  assignIssueToVolunteer Demo.env [Demo.candidate_Y] Demo.erin
                         "U0ERIN" "C0HELP" (Demo.world Demo.store_claimed)
  = ({| db := Demo.store_claimed;
        trace := [Slack (PostEphemeral "U0ERIN" "C0HELP"
                           (ConnectGithubFirst "U0ERIN"))] |},
     Ok (Some {| ts := "1700000000.000100" |})).
Proof. split; vm_compute; reflexivity. Qed.

(** C6, amended. A volunteer with a linked username and token who
    already holds a claim is told about the item of that claim; the store
    is untouched, no claim is added, and the only call made is that one
    Slack message: nothing is sent to the remote platform. *)
Theorem already_volunteering env items user user_id channel_id w v issue :
  truthy (githubToken user) = true →
  truthy (githubUsername user) = true →
  volunteerDetail_findFirst (u_id user) (db w) = Some (v, issue) →
  vd_assignee v = u_id user ∧
  In v (volunteerDetails (db w)) ∧
  issue = join_item (db w) <$> githubItem_by_id (vd_issue v) (db w) ∧
  assignIssueToVolunteer env items user user_id channel_id w
  = ({| db := db w;
        trace := trace w ++ [Slack (PostEphemeral user_id channel_id
                                      (volunteering_text issue))] |},
     match slack_post env (PostEphemeral user_id channel_id
                             (volunteering_text issue)) with
     | Some r => Ok (Some r)
     | None => Throw SlackError
     end).
Proof.
  intros Ht Hu Hv.
  destruct (volunteerDetail_findFirst_Some _ _ _ _ Hv) as (Ha & Hin & Hi).
  split_and!; try done.
  unfold assignIssueToVolunteer. rewrite Ht, Hu. cbn [negb orb].
  unfold bind at 1. unfold query at 1. cbn [db]. rewrite Hv.
  unfold bind. rewrite slack_call_run.
  by destruct (slack_post env _).
Qed.

Lemma already_volunteering_witness :
  assignIssueToVolunteer Demo.env [Demo.candidate_X] Demo.dave
                         "U0DAVE" "C0HELP" (Demo.world Demo.store_claimed)
  = ({| db := Demo.store_claimed;
        trace := [Slack (PostEphemeral "U0DAVE" "C0HELP"
                           (OneIssueAtATime (Some "acme") (Some "demo")
                                            (Some 8)))] |},
     Ok (Some {| ts := "1700000000.000100" |})).
Proof.
  apply (already_volunteering Demo.env [Demo.candidate_X] Demo.dave
           "U0DAVE" "C0HELP" (Demo.world Demo.store_claimed)
           (Demo.claim 5 7)
           (Some {| j_item := Demo.item_Y; j_repository := Some Demo.repo |}));
    reflexivity.
Defined.

(** C10. With an empty candidate list an eligible volunteer gets no
    claim and no exception: reading the first candidate raises inside the
    operation, where it is caught and logged. *)
Theorem empty_candidates_caught env user user_id channel_id w :
  truthy (githubToken user) = true →
  truthy (githubUsername user) = true →
  volunteerDetail_findFirst (u_id user) (db w) = None →
  assignIssueToVolunteer env [] user user_id channel_id w
  = ({| db := db w; trace := trace w ++ [ConsoleLog TypeError] |}, Ok None).
Proof.
  intros Ht Hu Hv. rewrite assign_eligible by done. done.
Qed.

Lemma empty_candidates_caught_witness :
  assignIssueToVolunteer Demo.env [] Demo.dave "U0DAVE" "C0HELP"
                         (Demo.world Demo.store_team)
  = ({| db := Demo.store_team; trace := [ConsoleLog TypeError] |}, Ok None).
Proof.
  apply (empty_candidates_caught Demo.env Demo.dave "U0DAVE" "C0HELP"
           (Demo.world Demo.store_team));
    reflexivity.
Defined.

(** C1, on the code. The only candidate, X, already has an assignee on
    the remote and is skipped; the remote would refuse any assignment and
    is never asked for one. A claim on X is written all the same, and
    dave is told he was assigned. *)
Theorem claim_without_remote_assignment :
  assignIssueToVolunteer Demo.env_refusing [Demo.candidate_X] Demo.dave
                         "U0DAVE" "C0HELP" (Demo.world Demo.store_team)
  = ({| db := {| repositories := repositories Demo.store_team;
                 users := users Demo.store_team;
                 githubItems := githubItems Demo.store_team;
                 labels := labels Demo.store_team;
                 volunteerDetails :=
                   [{| vd_assignee := 5;
                       assignedOn := "2024-01-01T00:00:00Z";
                       vd_issue := 3 |}];
                 nextId := 9 |};
        trace := [GetInstallationToken "acme" "demo";
                  IssuesGet "Bearer ghs_app" "acme" "demo" 7;
                  Slack (PostMessage "U0DAVE"
                           (AssignedTo (Some 7) (Some Demo.url)
                                       (Some "demo") (Some "acme")))] |},
     Ok None).
Proof. vm_compute. reflexivity. Qed.

(** C2, on the code. X has an assignee on the remote and Y has none: the
    comment and the assignment go to Y (issue 8), but the claim that is
    written references X (item 3), and dave is told he was assigned to
    issue 7. *)
Theorem claim_recorded_for_skipped_candidate :
  assignIssueToVolunteer Demo.env [Demo.candidate_X; Demo.candidate_Y]
                         Demo.dave "U0DAVE" "C0HELP"
                         (Demo.world Demo.store_team)
  = ({| db := {| repositories := repositories Demo.store_team;
                 users := users Demo.store_team;
                 githubItems := githubItems Demo.store_team;
                 labels := labels Demo.store_team;
                 volunteerDetails :=
                   [{| vd_assignee := 5;
                       assignedOn := "2024-01-01T00:00:00Z";
                       vd_issue := gi_id Demo.item_X |}];
                 nextId := 9 |};
        trace := [GetInstallationToken "acme" "demo";
                  IssuesGet "Bearer ghs_app" "acme" "demo" 7;
                  GetInstallationToken "acme" "demo";
                  IssuesGet "Bearer ghs_app" "acme" "demo" 8;
                  CreateComment "Bearer gho_dave" "acme" "demo" 8
                                "I'm volunteering to work on this issue.";
                  AddAssignees "Bearer ghs_app" "acme" "demo" 8 ["dave"];
                  Slack (PostMessage "U0DAVE"
                           (AssignedTo (Some 7) (Some Demo.url)
                                       (Some "demo") (Some "acme")))] |},
     Ok None).
Proof. vm_compute. reflexivity. Qed.

(** * Further properties *)

(** ** The reconciler, branch by branch *)

Lemma githubItem_upsert_frame author dbRepo it found s :
  repositories (fst (githubItem_upsert author dbRepo it found s))
  = repositories s ∧
  users (fst (githubItem_upsert author dbRepo it found s)) = users s ∧
  volunteerDetails (fst (githubItem_upsert author dbRepo it found s))
  = volunteerDetails s ∧
  labels s ⊆ labels (fst (githubItem_upsert author dbRepo it found s)) ∧
  ∀ nid, nid ≠ node_id it →
    githubItems (fst (githubItem_upsert author dbRepo it found s)) !! nid
    = githubItems s !! nid.
Proof.
  unfold githubItem_upsert.
  destruct (githubItems s !! node_id it) as [g|]; [destruct (actionItem g)|];
    cbn; split_and!; try done; try set_solver;
    intros nid Hne; by rewrite lookup_insert_ne.
Qed.

Lemma resolve_author_users login s :
  match user_findFirst login s with
  | Some _ => users (fst (resolve_author login s)) = users s
  | None => users (fst (resolve_author login s))
            = (users s ++ [{| u_id := nextId s; githubUsername := Some login;
                              githubToken := None; slackId := None |}])%list
  end.
Proof.
  unfold resolve_author. by destruct (user_findFirst login s).
Qed.

(** The whole run of a reconciliation that reaches the item upsert. *)
Lemma createGithubItem_sync_run env p w it :
  truthy (getProjectName env (html_url (p_repository p))) = true →
  or_else (p_issue p) (p_pull_request p) = Some it →
  is_maintainer (getMaintainers env (html_url (p_repository p)))
                (user_login it) = false →
  ∃ s1 r s2 author s3 res,
    repository_upsert (html_url (p_repository p)) (p_name (p_repository p))
                      (owner_login (p_repository p)) (db w) = (s1, Ok r) ∧
    resolve_author (user_login it) s1 = (s2, Ok author) ∧
    githubItem_upsert author r it (actionItem_findFirst (node_id it) s2) s2
    = (s3, res) ∧
    createGithubItem env p w
    = match res with
      | Ok g =>
          match actionItem g with
          | Some ai => ({| db := s3;
                           trace := trace w ++ [IndexDocument (ai_id ai)] |},
                        Ok tt)
          | None => ({| db := s3; trace := trace w |}, Throw TypeError)
          end
      | Throw e => ({| db := s3; trace := trace w |}, Throw e)
      end.
Proof.
  intros Hp Hit Hm. destruct w as [s t].
  unfold createGithubItem. rewrite Hp, Hit, Hm. cbn [negb db trace].
  destruct (repository_upsert_spec (html_url (p_repository p))
              (p_name (p_repository p)) (owner_login (p_repository p)) s)
    as (s1 & r & Hr & _).
  destruct (resolve_author_spec (user_login it) s1) as (s2 & a & Ha & _).
  destruct (githubItem_upsert a r it (actionItem_findFirst (node_id it) s2) s2)
    as [s3 res] eqn:Hup.
  exists s1, r, s2, a, s3, res. split_and!; try done.
  unfold bind, prisma, query. cbn [db trace]. rewrite Hr. cbn [db trace].
  unfold resolve_author in Ha.
  destruct (user_findFirst (user_login it) s1) as [u|].
  - injection Ha as <- <-. cbn [ret db trace]. rewrite Hup.
    destruct res as [g|e]; [|done]. cbn. by destruct (actionItem g).
  - cbn [db trace]. rewrite Ha. cbn [db trace]. rewrite Hup.
    destruct res as [g|e]; [|done]. cbn. by destruct (actionItem g).
Qed.

(** The run of a reconciliation that stops after the repository upsert. *)
Lemma createGithubItem_repository_run env p w :
  truthy (getProjectName env (html_url (p_repository p))) = true →
  match or_else (p_issue p) (p_pull_request p) with
  | Some it => is_maintainer (getMaintainers env (html_url (p_repository p)))
                             (user_login it) = true
  | None => True
  end →
  createGithubItem env p w
  = ({| db := fst (repository_upsert (html_url (p_repository p))
                     (p_name (p_repository p))
                     (owner_login (p_repository p)) (db w));
        trace := trace w |},
     match or_else (p_issue p) (p_pull_request p) with
     | Some _ => Ok tt
     | None => Throw TypeError
     end).
Proof.
  intros Hp Hit. destruct w as [s t]. unfold createGithubItem.
  rewrite Hp. cbn [negb db trace]. unfold bind, prisma. cbn [db trace].
  destruct (repository_upsert_spec (html_url (p_repository p))
              (p_name (p_repository p)) (owner_login (p_repository p)) s)
    as (s1 & r & -> & _).
  destruct (or_else (p_issue p) (p_pull_request p)) as [it|]; [|done].
  by rewrite Hit.
Qed.

(** The three ways a reconciliation can go. *)
Lemma createGithubItem_cases env p w :
  createGithubItem env p w = (w, Ok tt)
  ∨ (∃ res, createGithubItem env p w
            = ({| db := fst (repository_upsert (html_url (p_repository p))
                               (p_name (p_repository p))
                               (owner_login (p_repository p)) (db w));
                  trace := trace w |}, res))
  ∨ (∃ it s1 r s2 author s3 res,
       or_else (p_issue p) (p_pull_request p) = Some it ∧
       repository_upsert (html_url (p_repository p)) (p_name (p_repository p))
                         (owner_login (p_repository p)) (db w) = (s1, Ok r) ∧
       resolve_author (user_login it) s1 = (s2, Ok author) ∧
       githubItem_upsert author r it (actionItem_findFirst (node_id it) s2) s2
       = (s3, res) ∧
       db (fst (createGithubItem env p w)) = s3 ∧
       (trace (fst (createGithubItem env p w)) = trace w
        ∨ ∃ id, trace (fst (createGithubItem env p w))
                = (trace w ++ [IndexDocument id])%list)).
Proof.
  destruct (truthy (getProjectName env (html_url (p_repository p)))) eqn:Hp.
  2:{ left. unfold createGithubItem. by rewrite Hp. }
  right.
  destruct (or_else (p_issue p) (p_pull_request p)) as [it|] eqn:Hit.
  2:{ left. eexists. apply createGithubItem_repository_run; by rewrite ?Hit. }
  destruct (is_maintainer (getMaintainers env (html_url (p_repository p)))
                          (user_login it)) eqn:Hm.
  { left. eexists. apply createGithubItem_repository_run; by rewrite ?Hit. }
  right.
  destruct (createGithubItem_sync_run env p w it Hp Hit Hm)
    as (s1 & r & s2 & a & s3 & res & Hr & Ha & Hup & ->).
  exists it, s1, r, s2, a, s3, res. split_and!; try done.
  - destruct res as [g|e]; [destruct (actionItem g)|]; done.
  - destruct res as [g|e]; [destruct (actionItem g) as [ai|]|]; cbn;
      eauto.
Qed.

Lemma resolve_author_found login s s' a :
  resolve_author login s = (s', Ok a) → user_findFirst login s' = Some a.
Proof.
  unfold resolve_author.
  destruct (user_findFirst login s) as [u|] eqn:Hu.
  - by intros [= <- <-].
  - unfold user_create. intros [= <- <-]. unfold user_findFirst in *. cbn.
    apply find_app_fresh; [done|]. cbn. by apply bool_decide_eq_true_2.
Qed.

(** ** The item reconciler: further properties *)

(** X1. A reconciliation never writes a volunteer claim and calls neither
    GitHub nor Slack: all it adds to the trace is at most one request to
    index a workflow record. *)
Theorem reconcile_writes_no_claim env p w :
  volunteerDetails (db (fst (createGithubItem env p w)))
  = volunteerDetails (db w) ∧
  (trace (fst (createGithubItem env p w)) = trace w
   ∨ ∃ id, trace (fst (createGithubItem env p w))
           = (trace w ++ [IndexDocument id])%list).
Proof.
  destruct (repository_upsert_spec (html_url (p_repository p))
              (p_name (p_repository p)) (owner_login (p_repository p)) (db w))
    as (s1' & r' & Hr' & _ & _ & _ & _ & _ & _ & Hv1).
  destruct (createGithubItem_cases env p w)
    as [-> | [[res ->] | (it & s1 & r & s2 & a & s3 & res & _ & Hr & Ha & Hup
                            & -> & Ht)]].
  - by split; [|left].
  - cbn. rewrite Hr'. by split; [|left].
  - split; [|done]. rewrite Hr in Hr'. injection Hr' as <- <-.
    destruct (resolve_author_spec (user_login it) s1)
      as (s2' & a' & Ha' & _ & _ & _ & _ & Hv2).
    rewrite Ha in Ha'. injection Ha' as <- <-.
    pose proof (githubItem_upsert_frame a r it
                  (actionItem_findFirst (node_id it) s2) s2) as (_ & _ & Hv3 & _).
    rewrite Hup in Hv3. cbn in Hv3. congruence.
Qed.

(** X2. A delivery with neither an issue nor a pull request on a
    monitored repository raises a TypeError, but only after the repository
    was upserted: that write stays, nothing else is written. *)
Theorem payload_without_item_raises env p w :
  truthy (getProjectName env (html_url (p_repository p))) = true →
  p_issue p = None →
  p_pull_request p = None →
  snd (createGithubItem env p w) = Throw TypeError ∧
  trace (fst (createGithubItem env p w)) = trace w ∧
  (∃ r, repositories (db (fst (createGithubItem env p w)))
        = <[html_url (p_repository p) := r]> (repositories (db w)) ∧
        repo_name r = p_name (p_repository p) ∧
        repo_owner r = owner_login (p_repository p)) ∧
  githubItems (db (fst (createGithubItem env p w))) = githubItems (db w) ∧
  users (db (fst (createGithubItem env p w))) = users (db w).
Proof.
  intros Hp Hi Hpr.
  rewrite createGithubItem_repository_run by (by rewrite ?Hi, ?Hpr).
  rewrite Hi, Hpr. cbn.
  destruct (repository_upsert_spec (html_url (p_repository p))
              (p_name (p_repository p)) (owner_login (p_repository p)) (db w))
    as (s1 & r & -> & Hrs & Hn & Ho & Hu & Hg & _).
  split_and!; try done. by exists r.
Qed.

Lemma payload_without_item_raises_witness :
  snd (createGithubItem Demo.env Scenario.bare_event (Demo.world Demo.empty))
  = Throw TypeError ∧
  trace (fst (createGithubItem Demo.env Scenario.bare_event
                               (Demo.world Demo.empty))) = [] ∧
  (∃ r, repositories
          (db (fst (createGithubItem Demo.env Scenario.bare_event
                                     (Demo.world Demo.empty))))
        = <[Demo.url := r]> ∅ ∧
        repo_name r = "demo" ∧ repo_owner r = "acme") ∧
  githubItems (db (fst (createGithubItem Demo.env Scenario.bare_event
                                         (Demo.world Demo.empty)))) = ∅ ∧
  users (db (fst (createGithubItem Demo.env Scenario.bare_event
                                   (Demo.world Demo.empty)))) = [].
Proof.
  apply (payload_without_item_raises Demo.env Scenario.bare_event
           (Demo.world Demo.empty)); reflexivity.
Defined.

(** X3. The first reconciliation of an item stores it with the payload's
    title, number, timestamps and labels, an empty body when the payload
    has none, state open, and a fresh open workflow record without replies,
    resolution or participants; the item references the user found under
    the author's login and the repository stored under the payload's url;
    the run returns normally. *)
Theorem created_item_record env p w it :
  truthy (getProjectName env (html_url (p_repository p))) = true →
  or_else (p_issue p) (p_pull_request p) = Some it →
  is_maintainer (getMaintainers env (html_url (p_repository p)))
                (user_login it) = false →
  githubItems (db w) !! node_id it = None →
  ∃ g ai author r,
    githubItems (db (fst (createGithubItem env p w))) !! node_id it = Some g ∧
    title g = p_title it ∧ body g = or_empty (p_body it) ∧
    number g = p_number it ∧ state g = st_open ∧
    createdAt g = created_at it ∧ updatedAt g = updated_at it ∧
    labelsOnItems g = label_rows (p_labels it) ∧
    actionItem g = Some ai ∧ ai_status ai = st_open ∧ totalReplies ai = 0 ∧
    resolvedAt ai = None ∧ participants ai = [] ∧
    user_findFirst (user_login it) (db (fst (createGithubItem env p w)))
    = Some author ∧
    authorId g = Some (u_id author) ∧
    repositories (db (fst (createGithubItem env p w)))
      !! html_url (p_repository p) = Some r ∧
    repositoryId g = Some (repo_id r) ∧
    snd (createGithubItem env p w) = Ok tt.
Proof.
  intros Hp Hit Hm Hg.
  destruct (createGithubItem_sync_run env p w it Hp Hit Hm)
    as (s1 & r & s2 & a & s3 & res & Hr & Ha & Hup & ->).
  destruct (repository_upsert_spec (html_url (p_repository p))
              (p_name (p_repository p)) (owner_login (p_repository p)) (db w))
    as (s1' & r' & Hr' & Hrs & _ & _ & _ & Hg1 & _).
  rewrite Hr in Hr'. injection Hr' as <- <-.
  destruct (resolve_author_spec (user_login it) s1)
    as (s2' & a' & Ha' & _ & Hr2 & Hg2 & _).
  rewrite Ha in Ha'. injection Ha' as <- <-.
  pose proof (resolve_author_found _ _ _ _ Ha) as Hfound.
  unfold githubItem_upsert in Hup. rewrite Hg2, Hg1, Hg in Hup.
  injection Hup as <- <-. cbn.
  eexists _, _, a, r. split; [by rewrite lookup_insert_eq|].
  split_and!; try done.
  by rewrite Hr2, Hrs, lookup_insert_eq.
Qed.

Lemma created_item_record_witness :
  ∃ g ai author r,
    githubItems (db (fst (createGithubItem Demo.env Scenario.event_by_bob
                            (Demo.world Demo.store_AB)))) !! "I_9" = Some g ∧
    title g = "Typo in README" ∧ body g = "see title" ∧
    number g = 12 ∧ state g = st_open ∧
    createdAt g = "T5" ∧ updatedAt g = "T6" ∧
    labelsOnItems g = ["docs"] ∧
    actionItem g = Some ai ∧ ai_status ai = st_open ∧ totalReplies ai = 0 ∧
    resolvedAt ai = None ∧ participants ai = [] ∧
    user_findFirst "bob" (db (fst (createGithubItem Demo.env
                                     Scenario.event_by_bob
                                     (Demo.world Demo.store_AB))))
    = Some author ∧
    authorId g = Some (u_id author) ∧
    repositories (db (fst (createGithubItem Demo.env Scenario.event_by_bob
                             (Demo.world Demo.store_AB)))) !! Demo.url
    = Some r ∧
    repositoryId g = Some (repo_id r) ∧
    snd (createGithubItem Demo.env Scenario.event_by_bob
                          (Demo.world Demo.store_AB)) = Ok tt.
Proof.
  apply (created_item_record Demo.env Scenario.event_by_bob
           (Demo.world Demo.store_AB) Scenario.issue_by_bob); reflexivity.
Defined.

(** X4. A reconciliation that gets past the maintainer check creates at
    most one user: none when a user already has the author's login, and
    otherwise one with that login and neither token nor Slack identity.
    This holds whether or not the item upsert that follows succeeds. *)
Theorem author_found_or_created env p w it :
  truthy (getProjectName env (html_url (p_repository p))) = true →
  or_else (p_issue p) (p_pull_request p) = Some it →
  is_maintainer (getMaintainers env (html_url (p_repository p)))
                (user_login it) = false →
  match user_findFirst (user_login it) (db w) with
  | Some _ => users (db (fst (createGithubItem env p w))) = users (db w)
  | None =>
      ∃ i, users (db (fst (createGithubItem env p w)))
           = (users (db w)
              ++ [{| u_id := i; githubUsername := Some (user_login it);
                     githubToken := None; slackId := None |}])%list
  end.
Proof.
  intros Hp Hit Hm.
  destruct (createGithubItem_sync_run env p w it Hp Hit Hm)
    as (s1 & r & s2 & a & s3 & res & Hr & Ha & Hup & ->).
  destruct (repository_upsert_spec (html_url (p_repository p))
              (p_name (p_repository p)) (owner_login (p_repository p)) (db w))
    as (s1' & r' & Hr' & _ & _ & _ & Hu1 & _).
  rewrite Hr in Hr'. injection Hr' as <- <-.
  pose proof (resolve_author_users (user_login it) s1) as Hu2.
  rewrite Ha in Hu2. cbn in Hu2.
  pose proof (githubItem_upsert_frame a r it
                (actionItem_findFirst (node_id it) s2) s2) as (_ & Hu3 & _).
  rewrite Hup in Hu3. cbn in Hu3.
  assert (users (db (match res with
                     | Ok g =>
                         match actionItem g with
                         | Some ai =>
                             ({| db := s3;
                                 trace := trace w ++ [IndexDocument (ai_id ai)] |},
                              Ok tt)
                         | None => ({| db := s3; trace := trace w |},
                                    Throw TypeError)
                         end
                     | Throw e => ({| db := s3; trace := trace w |}, Throw e)
                     end).1) = users s2) as ->.
  { destruct res as [g|e]; [destruct (actionItem g)|]; done. }
  unfold user_findFirst in *. rewrite Hu1 in Hu2.
  destruct (List.find _ (users (db w))); [done|].
  eexists. by rewrite Hu2.
Qed.

Lemma author_found_or_created_witness :
  ∃ i, users (db (fst (createGithubItem Demo.env Scenario.event_by_bob
                         (Demo.world Demo.store_AB))))
       = [Demo.alice;
          {| u_id := i; githubUsername := Some "bob"; githubToken := None;
             slackId := None |}].
Proof.
  apply (author_found_or_created Demo.env Scenario.event_by_bob
           (Demo.world Demo.store_AB) Scenario.issue_by_bob); reflexivity.
Defined.

(** X5. Updating a stored item refreshes its title, body and update time
    and reopens it, but keeps its id, node identifier, number, kind,
    creation time, author and repository as they were stored, and keeps
    the reply count of its workflow record. *)
Theorem update_keeps_identity env p w it g ai :
  truthy (getProjectName env (html_url (p_repository p))) = true →
  or_else (p_issue p) (p_pull_request p) = Some it →
  is_maintainer (getMaintainers env (html_url (p_repository p)))
                (user_login it) = false →
  githubItems (db w) !! node_id it = Some g →
  actionItem g = Some ai →
  ∃ g' ai',
    githubItems (db (fst (createGithubItem env p w))) !! node_id it
    = Some g' ∧
    gi_id g' = gi_id g ∧ nodeId g' = nodeId g ∧ number g' = number g ∧
    type g' = type g ∧ createdAt g' = createdAt g ∧
    authorId g' = authorId g ∧ repositoryId g' = repositoryId g ∧
    title g' = p_title it ∧ body g' = or_empty (p_body it) ∧
    updatedAt g' = updated_at it ∧ state g' = st_open ∧
    actionItem g' = Some ai' ∧ totalReplies ai' = totalReplies ai.
Proof.
  intros Hp Hit Hm Hg Hai. eexists _, _. split.
  - by apply createGithubItem_update.
  - done.
Qed.

Lemma update_keeps_identity_witness :
  ∃ g' ai',
    githubItems
      (db (fst (createGithubItem Demo.env
                  {| p_issue := None;
                     p_pull_request :=
                       Some {| node_id := "I_1"; p_title := "Crash at boot";
                               p_body := Some "stack trace"; p_number := 99;
                               user_login := "mallory"; p_labels := None;
                               created_at := "T8"; updated_at := "T9" |};
                     p_repository := p_repository Scenario.event_by_bob |}
                  (Demo.world Demo.store_AB)))) !! "I_1" = Some g' ∧
    gi_id g' = 3 ∧ nodeId g' = "I_1" ∧ number g' = 7 ∧
    type g' = ty_issue ∧ createdAt g' = "T1" ∧
    authorId g' = Some 2 ∧ repositoryId g' = Some 1 ∧
    title g' = "Crash at boot" ∧ body g' = "stack trace" ∧
    updatedAt g' = "T9" ∧ state g' = st_open ∧
    actionItem g' = Some ai' ∧ totalReplies ai' = 0.
Proof.
  apply (update_keeps_identity Demo.env
           {| p_issue := None;
              p_pull_request :=
                Some {| node_id := "I_1"; p_title := "Crash at boot";
                        p_body := Some "stack trace"; p_number := 99;
                        user_login := "mallory"; p_labels := None;
                        created_at := "T8"; updated_at := "T9" |};
              p_repository := p_repository Scenario.event_by_bob |}
           (Demo.world Demo.store_AB)
           {| node_id := "I_1"; p_title := "Crash at boot";
              p_body := Some "stack trace"; p_number := 99;
              user_login := "mallory"; p_labels := None;
              created_at := "T8"; updated_at := "T9" |}
           Demo.item_AB (Demo.workflow 4 st_open None []));
    reflexivity.
Defined.

(** X6. A reconciliation touches no item but the one of its payload: an
    item stored under any other node identifier is read back unchanged,
    whichever way the run ends. *)
Theorem other_items_untouched env p w nid :
  (∀ it, or_else (p_issue p) (p_pull_request p) = Some it →
         node_id it ≠ nid) →
  githubItems (db (fst (createGithubItem env p w))) !! nid
  = githubItems (db w) !! nid.
Proof.
  intros Hne.
  destruct (repository_upsert_spec (html_url (p_repository p))
              (p_name (p_repository p)) (owner_login (p_repository p)) (db w))
    as (s1' & r' & Hr' & _ & _ & _ & _ & Hg1 & _).
  destruct (createGithubItem_cases env p w)
    as [-> | [[res ->] | (it & s1 & r & s2 & a & s3 & res & Hit & Hr & Ha & Hup
                            & -> & _)]].
  - done.
  - cbn [fst db]. rewrite Hr'. cbn [fst]. by rewrite Hg1.
  - rewrite Hr in Hr'. injection Hr' as <- <-.
    destruct (resolve_author_spec (user_login it) s1)
      as (s2' & a' & Ha' & _ & _ & Hg2 & _).
    rewrite Ha in Ha'. injection Ha' as <- <-.
    pose proof (githubItem_upsert_frame a r it
                  (actionItem_findFirst (node_id it) s2) s2)
      as (_ & _ & _ & _ & Hg3).
    rewrite Hup in Hg3. cbn in Hg3.
    rewrite Hg3 by (intros ->; by apply (Hne it)). by rewrite Hg2, Hg1.
Qed.

Lemma other_items_untouched_witness :
  githubItems (db (fst (createGithubItem Demo.env
                          (Demo.event "alice" ["C"] "T2")
                          (Demo.world Demo.store_team)))) !! "I_2"
  = Some Demo.item_Y.
Proof.
  apply (other_items_untouched Demo.env (Demo.event "alice" ["C"] "T2")
           (Demo.world Demo.store_team) "I_2").
  intros it [= <-]. discriminate.
Defined.

(** X7. A reconciliation never removes a label: every row of the label
    table is still there afterwards, also when the item's own label
    associations are replaced. *)
Theorem labels_only_grow env p w :
  labels (db w) ⊆ labels (db (fst (createGithubItem env p w))).
Proof.
  destruct (repository_upsert_spec (html_url (p_repository p))
              (p_name (p_repository p)) (owner_login (p_repository p)) (db w))
    as (s1' & r' & Hr' & _ & _ & _ & _ & _ & Hl1 & _).
  destruct (createGithubItem_cases env p w)
    as [-> | [[res ->] | (it & s1 & r & s2 & a & s3 & res & Hit & Hr & Ha & Hup
                            & -> & _)]].
  - done.
  - cbn [fst db]. rewrite Hr'. cbn [fst]. by rewrite Hl1.
  - rewrite Hr in Hr'. injection Hr' as <- <-.
    destruct (resolve_author_spec (user_login it) s1)
      as (s2' & a' & Ha' & _ & _ & _ & Hl2 & _).
    rewrite Ha in Ha'. injection Ha' as <- <-.
    pose proof (githubItem_upsert_frame a r it
                  (actionItem_findFirst (node_id it) s2) s2)
      as (_ & _ & _ & Hl3 & _).
    rewrite Hup in Hl3. cbn in Hl3. by rewrite <- Hl1, <- Hl2.
Qed.

Lemma githubItem_upsert_closed author dbRepo it found s :
  labels_closed s →
  labels_closed (fst (githubItem_upsert author dbRepo it found s)).
Proof.
  intros Hc.
  assert (Hgrow : ∀ g, Forall (λ l, l ∈ labels s) (labelsOnItems g) →
            Forall (λ l, l ∈ labels s ∪ list_to_set (label_rows (p_labels it)))
                   (labelsOnItems g)).
  { intros g Hg. eapply Forall_impl; [exact Hg|]. set_solver. }
  assert (Hnew : Forall (λ l : string,
                     l ∈ labels s ∪ list_to_set (label_rows (p_labels it)))
                   (label_rows (p_labels it))).
  { apply Forall_forall. set_solver. }
  unfold githubItem_upsert.
  destruct (githubItems s !! node_id it) as [g|]; [destruct (actionItem g)|];
    cbn; try done; unfold labels_closed; cbn;
    (apply map_Forall_insert_2; [done|]);
    (eapply map_Forall_impl; [exact Hc|]); intros k g'; apply Hgrow.
Qed.

(** X8. Referential integrity of labels is kept: if every label
    associated with a stored item is a row of the label table before a
    reconciliation, the same is true after it. *)
Theorem label_integrity_preserved env p w :
  labels_closed (db w) →
  labels_closed (db (fst (createGithubItem env p w))).
Proof.
  intros Hc.
  destruct (repository_upsert_spec (html_url (p_repository p))
              (p_name (p_repository p)) (owner_login (p_repository p)) (db w))
    as (s1' & r' & Hr' & _ & _ & _ & _ & Hg1 & Hl1 & _).
  assert (Hc1 : labels_closed s1').
  { unfold labels_closed in *. by rewrite Hg1, Hl1. }
  destruct (createGithubItem_cases env p w)
    as [-> | [[res ->] | (it & s1 & r & s2 & a & s3 & res & Hit & Hr & Ha & Hup
                            & -> & _)]].
  - done.
  - cbn [fst db]. by rewrite Hr'.
  - rewrite Hr in Hr'. injection Hr' as <- <-.
    destruct (resolve_author_spec (user_login it) s1)
      as (s2' & a' & Ha' & _ & _ & Hg2 & Hl2 & _).
    rewrite Ha in Ha'. injection Ha' as <- <-.
    assert (Hc2 : labels_closed s2).
    { unfold labels_closed in *. by rewrite Hg2, Hl2. }
    pose proof (githubItem_upsert_closed a r it
                  (actionItem_findFirst (node_id it) s2) s2 Hc2) as Hc3.
    by rewrite Hup in Hc3.
Qed.

Lemma label_integrity_preserved_witness :
  labels_closed (db (fst (createGithubItem Demo.env Scenario.event_by_bob
                            (Demo.world Demo.store_AB)))).
Proof.
  apply (label_integrity_preserved Demo.env Scenario.event_by_bob
           (Demo.world Demo.store_AB)).
  unfold labels_closed. apply (bool_decide_unpack _). vm_compute. exact I.
Defined.

(** X9. A reconciliation that stores or updates an item returns normally
    and asks, as its only outside effect, for the indexing of that item's
    workflow record, by the id the record has in the store. *)
Theorem sync_triggers_indexing env p w it :
  truthy (getProjectName env (html_url (p_repository p))) = true →
  or_else (p_issue p) (p_pull_request p) = Some it →
  is_maintainer (getMaintainers env (html_url (p_repository p)))
                (user_login it) = false →
  match githubItems (db w) !! node_id it with
  | Some g => is_Some (actionItem g)
  | None => True
  end →
  ∃ g ai,
    githubItems (db (fst (createGithubItem env p w))) !! node_id it
    = Some g ∧
    actionItem g = Some ai ∧
    trace (fst (createGithubItem env p w))
    = (trace w ++ [IndexDocument (ai_id ai)])%list ∧
    snd (createGithubItem env p w) = Ok tt.
Proof.
  intros Hp Hit Hm Hpre.
  destruct (createGithubItem_sync_run env p w it Hp Hit Hm)
    as (s1 & r & s2 & a & s3 & res & Hr & Ha & Hup & ->).
  destruct (repository_upsert_spec (html_url (p_repository p))
              (p_name (p_repository p)) (owner_login (p_repository p)) (db w))
    as (s1' & r' & Hr' & _ & _ & _ & _ & Hg1 & _).
  rewrite Hr in Hr'. injection Hr' as <- <-.
  destruct (resolve_author_spec (user_login it) s1)
    as (s2' & a' & Ha' & _ & _ & Hg2 & _).
  rewrite Ha in Ha'. injection Ha' as <- <-.
  unfold githubItem_upsert in Hup. rewrite Hg2, Hg1 in Hup.
  destruct (githubItems (db w) !! node_id it) as [g|].
  - destruct Hpre as [ai Hai]. rewrite Hai in Hup.
    injection Hup as <- <-. cbn. eexists _, _.
    rewrite lookup_insert_eq. done.
  - injection Hup as <- <-. cbn. eexists _, _.
    rewrite lookup_insert_eq. done.
Qed.

Lemma sync_triggers_indexing_witness :
  ∃ g ai,
    githubItems (db (fst (createGithubItem Demo.env
                            (Demo.event "alice" ["C"] "T2")
                            (Demo.world Demo.store_resolved)))) !! "I_1"
    = Some g ∧
    actionItem g = Some ai ∧
    trace (fst (createGithubItem Demo.env (Demo.event "alice" ["C"] "T2")
                                 (Demo.world Demo.store_resolved)))
    = [IndexDocument (ai_id ai)] ∧
    snd (createGithubItem Demo.env (Demo.event "alice" ["C"] "T2")
                          (Demo.world Demo.store_resolved)) = Ok tt.
Proof.
  apply (sync_triggers_indexing Demo.env (Demo.event "alice" ["C"] "T2")
           (Demo.world Demo.store_resolved)
           (Demo.issue_by "alice" ["C"] "T2")); try reflexivity.
  by eexists.
Defined.

(** ** The volunteer coordinator: further properties *)

Lemma bind_result {A B} (m : M A) (k : A -> M B) (P : B -> Prop) w :
  (∀ a w1, match snd (k a w1) with Ok b => P b | Throw _ => True end) →
  match snd (bind m k w) with Ok b => P b | Throw _ => True end.
Proof.
  intros Hk. unfold bind. destruct (m w) as [w1 [a|e]]; [apply Hk|done].
Qed.

(** X10. Once the two guards are passed nothing escapes the operation:
    whatever the candidates are and whatever the remote, the store and
    Slack answer, an eligible volunteer's call returns normally, with no
    value. *)
Theorem assign_never_throws env items user user_id channel_id w :
  truthy (githubToken user) = true →
  truthy (githubUsername user) = true →
  volunteerDetail_findFirst (u_id user) (db w) = None →
  snd (assignIssueToVolunteer env items user user_id channel_id w) = Ok None.
Proof.
  intros Ht Hu Hv. rewrite assign_eligible by done.
  match goal with |- snd (try_catch ?b _ w) = _ => set (body := b) end.
  assert (Hb : match snd (body w) with
               | Ok b => b = None
               | Throw _ => True
               end).
  { subst body. apply bind_result. intros _ w1.
    apply bind_result. intros first w2.
    apply bind_result. intros _ w3.
    apply bind_result. intros _ w4. done. }
  unfold try_catch. destruct (body w) as [w' [b|e]]; cbn in *; [|done].
  by subst b.
Qed.

Lemma assign_never_throws_witness :
  snd (assignIssueToVolunteer Scenario.env_down
         [Scenario.slack_candidate; Demo.candidate_X] Demo.dave
         "U0DAVE" "C0HELP" (Demo.world Demo.store_team)) = Ok None.
Proof.
  apply (assign_never_throws Scenario.env_down
           [Scenario.slack_candidate; Demo.candidate_X] Demo.dave
           "U0DAVE" "C0HELP" (Demo.world Demo.store_team)); reflexivity.
Defined.

(** What an eligible volunteer's call can do to the store. *)
Lemma assign_eligible_db env items user user_id channel_id w :
  truthy (githubToken user) = true →
  truthy (githubUsername user) = true →
  volunteerDetail_findFirst (u_id user) (db w) = None →
  db (fst (assignIssueToVolunteer env items user user_id channel_id w)) = db w
  ∨ ∃ i,
      db (fst (assignIssueToVolunteer env items user user_id channel_id w))
      = {| repositories := repositories (db w); users := users (db w);
           githubItems := githubItems (db w); labels := labels (db w);
           volunteerDetails :=
             volunteerDetails (db w)
             ++ [{| vd_assignee := u_id user; assignedOn := now env;
                    vd_issue := i |}];
           nextId := nextId (db w) |}.
Proof.
  intros Ht Hu Hv. rewrite assign_eligible by done.
  pose proof (claimLoop_db env user items w) as Hdb.
  destruct (claimLoop env user items w) as [w' [[]|e]] eqn:Hl; cbn in Hdb.
  2:{ left. rewrite (try_catch_bind_throw _ _ _ _ e) by (by rewrite Hl).
      by rewrite Hl. }
  rewrite (try_catch_bind_ok _ _ _ _ _ _ Hl). clear Hl.
  destruct items as [|first rest]; [by left|].
  unfold try_catch, bind, first_item, ret, prisma, volunteerDetail_create,
    slack_call, remote, emit, throw.
  destruct (c_githubItem first) as [gh|] eqn:Hgh; cbn; [|by left].
  destruct (existsb _ _ && _); cbn; [|by left].
  right. exists (gi_id (j_item gh)). rewrite Hdb.
  by destruct (slack_post env _).
Qed.

(** X11. Whatever the outcome, a call to the coordinator leaves the
    repositories, users, items and labels of the store as they were, and
    adds at most one volunteer claim, whose assignee is the calling
    volunteer and whose date is the current time. *)
Theorem assign_frame env items user user_id channel_id w :
  repositories (db (fst (assignIssueToVolunteer env items user user_id
                                                channel_id w)))
  = repositories (db w) ∧
  users (db (fst (assignIssueToVolunteer env items user user_id
                                         channel_id w))) = users (db w) ∧
  githubItems (db (fst (assignIssueToVolunteer env items user user_id
                                               channel_id w)))
  = githubItems (db w) ∧
  labels (db (fst (assignIssueToVolunteer env items user user_id
                                          channel_id w))) = labels (db w) ∧
  (volunteerDetails (db (fst (assignIssueToVolunteer env items user user_id
                                                     channel_id w)))
   = volunteerDetails (db w)
   ∨ ∃ i, volunteerDetails
            (db (fst (assignIssueToVolunteer env items user user_id
                                             channel_id w)))
          = (volunteerDetails (db w)
             ++ [{| vd_assignee := u_id user; assignedOn := now env;
                    vd_issue := i |}])%list).
Proof.
  destruct (negb (truthy (githubToken user))
            || negb (truthy (githubUsername user))) eqn:Hguard.
  { assert (db (fst (assignIssueToVolunteer env items user user_id
                                            channel_id w)) = db w) as ->.
    { unfold assignIssueToVolunteer. rewrite Hguard. unfold bind.
      rewrite slack_call_run. by destruct (slack_post env _). }
    split_and!; try done. by left. }
  apply orb_false_iff in Hguard as [Ht Hu].
  apply negb_false_iff in Ht, Hu.
  destruct (volunteerDetail_findFirst (u_id user) (db w)) as [[v issue]|] eqn:Hv.
  { assert (db (fst (assignIssueToVolunteer env items user user_id
                                            channel_id w)) = db w) as ->.
    { unfold assignIssueToVolunteer. rewrite Ht, Hu. cbn [negb orb].
      unfold bind at 1. unfold query at 1. cbn [db]. rewrite Hv.
      unfold bind. rewrite slack_call_run. by destruct (slack_post env _). }
    split_and!; try done. by left. }
  destruct (assign_eligible_db env items user user_id channel_id w Ht Hu Hv)
    as [-> | [i ->]]; cbn.
  - split_and!; try done. by left.
  - split_and!; try done. right. by exists i.
Qed.

Lemma claimLoop_cons env user item rest :
  claimLoop env user (item :: rest)
  = match c_githubItem item with
    | None => claimLoop env user rest
    | Some gh => claim_attempt env user gh (claimLoop env user rest)
    end.
Proof. done. Qed.

Lemma loop_shape_read user e evs res :
  is_read e = true → loop_shape user evs res → loop_shape user (e :: evs) res.
Proof.
  intros He (reads & writes & -> & Hr & Hw).
  exists (e :: reads), writes. split_and!; try done. cbn. by rewrite He.
Qed.

Lemma loop_shape_nil user res : loop_shape user [] res.
Proof. exists [], []. split_and!; try done. by left. Qed.

Lemma loop_shape_comment user owner repo num :
  loop_shape user
    [CreateComment (String.append "Bearer " (default "" (githubToken user)))
                   owner repo num volunteering_comment]
    (Throw HttpError).
Proof.
  eexists [], [_]. split_and!; try done. right. eexists "", _, _, _. by left.
Qed.

Lemma loop_shape_both user auth owner repo num res :
  loop_shape user
    [CreateComment (String.append "Bearer " (default "" (githubToken user)))
                   owner repo num volunteering_comment;
     AddAssignees auth owner repo num [default "" (githubUsername user)]]
    res.
Proof.
  eexists [], [_; _]. split_and!; try done. right. eexists _, _, _, _. by right.
Qed.

Lemma claim_attempt_shape env user gh next :
  (∀ w1, ∃ evs, trace (fst (next w1)) = (trace w1 ++ evs)%list ∧
                loop_shape user evs (snd (next w1))) →
  ∀ w, ∃ evs,
    trace (fst (claim_attempt env user gh next w)) = (trace w ++ evs)%list ∧
    loop_shape user evs (snd (claim_attempt env user gh next w)).
Proof.
  intros Hnext w.
  unfold claim_attempt, getOctokitToken, remote, bind, emit, ret, throw,
    guard_ok.
  cbn [db trace].
  destruct (negb _ || negb _); cbn [db trace];
    [|destruct (installationToken env _ _) as [tok|]; cbn [db trace]];
    try (destruct (issues_get env _ _ _ _) as [issue|]; cbn [db trace];
         [destruct (has_assignees issue);
          [match goal with
           | |- context [next ?w1] =>
               destruct (Hnext w1) as (evs' & Hevs & Hshape);
               destruct (next w1) as [w2 res2]; cbn [fst snd db trace] in *
           end
          |destruct (issues_createComment env _ _ _ _ _); cbn [db trace];
           [destruct (issues_addAssignees env _ _ _ _ _); cbn [db trace]|]]|]);
    cbn [fst snd db trace]; rewrite ?Hevs; rewrite <- ?app_assoc;
    (eexists; split; [reflexivity|]); cbn [app];
    repeat (apply loop_shape_read; [reflexivity|]);
    first [ apply loop_shape_nil | apply loop_shape_comment
          | apply loop_shape_both | exact Hshape ].
Qed.

Lemma claimLoop_shape env user items w :
  ∃ evs,
    trace (fst (claimLoop env user items w)) = (trace w ++ evs)%list ∧
    loop_shape user evs (snd (claimLoop env user items w)).
Proof.
  revert w. induction items as [|item rest IH]; intros w.
  { exists []. split; [by rewrite app_nil_r|apply loop_shape_nil]. }
  rewrite claimLoop_cons. destruct (c_githubItem item) as [gh|]; [|apply IH].
  by apply claim_attempt_shape.
Qed.

(** X12. In one run the loop writes to at most one issue. Everything it
    sends before is a read (installation tokens and issue fetches); then
    it sends nothing more, or the volunteer's comment under the
    volunteer's own token followed by the assignment of the volunteer's
    username on the same issue. The comment stands alone only when the
    run fails. *)
Theorem loop_writes_once env user items w :
  ∃ evs,
    trace (fst (claimLoop env user items w)) = (trace w ++ evs)%list ∧
    loop_shape user evs (snd (claimLoop env user items w)).
Proof. apply claimLoop_shape. Qed.

(** X13. Candidates without a GitHub item (workflow records that come
    from Slack messages) are invisible to the loop: it runs exactly as on
    the list with those candidates removed, and sends nothing to the
    remote on their behalf. *)
Theorem loop_ignores_items_without_github env user items w :
  claimLoop env user items w
  = claimLoop env user (List.filter has_githubItem items) w.
Proof.
  revert w. induction items as [|item rest IH]; intros w; [done|].
  cbn [List.filter]. unfold has_githubItem at 1.
  rewrite claimLoop_cons.
  destruct (c_githubItem item) as [gh|] eqn:Hgh; [|apply IH].
  rewrite claimLoop_cons, Hgh.
  unfold claim_attempt, bind.
  destruct (getOctokitToken env _ _ w) as [w1 [tok|e]]; [|done].
  destruct (remote _ _ _ w1) as [w2 [issue|e]]; [|done].
  destruct (has_assignees issue); [apply IH|done].
Qed.

Lemma or_empty_truthy x : truthy (Some x) = true → or_empty (Some x) = x.
Proof. unfold or_empty. by intros ->. Qed.

(** The run of the loop when its first candidate is free on the remote
    and the comment goes through. *)
Lemma claimLoop_first_free env user first rest gh rp tok a w :
  c_githubItem first = Some gh →
  j_repository gh = Some rp →
  truthy (Some (repo_owner rp)) = true →
  truthy (Some (repo_name rp)) = true →
  installationToken env (repo_owner rp) (repo_name rp) = Some tok →
  issues_get env (String.append "Bearer " tok) (repo_owner rp) (repo_name rp)
             (number (j_item gh)) = Some a →
  has_assignees a = false →
  issues_createComment env
    (String.append "Bearer " (default "" (githubToken user)))
    (repo_owner rp) (repo_name rp) (number (j_item gh)) volunteering_comment
  = true →
  claimLoop env user (first :: rest) w
  = ({| db := db w;
        trace := trace w
                 ++ [GetInstallationToken (repo_owner rp) (repo_name rp);
                     IssuesGet (String.append "Bearer " tok) (repo_owner rp)
                               (repo_name rp) (number (j_item gh));
                     CreateComment
                       (String.append "Bearer " (default "" (githubToken user)))
                       (repo_owner rp) (repo_name rp) (number (j_item gh))
                       volunteering_comment;
                     AddAssignees (String.append "Bearer " tok) (repo_owner rp)
                                  (repo_name rp) (number (j_item gh))
                                  [default "" (githubUsername user)]] |},
     if issues_addAssignees env (String.append "Bearer " tok) (repo_owner rp)
                            (repo_name rp) (number (j_item gh))
                            [default "" (githubUsername user)]
     then Ok tt else Throw HttpError).
Proof.
  intros Hgh Hrp Ho Hn Htok Hget Hfree Hcomment.
  rewrite claimLoop_cons, Hgh.
  unfold claim_attempt, getOctokitToken. rewrite Hrp.
  cbn [fmap option_fmap option_map].
  rewrite (or_empty_truthy _ Ho), (or_empty_truthy _ Hn), Ho, Hn.
  cbn [negb orb].
  unfold remote, bind, emit, ret, throw, guard_ok. cbn [db trace].
  rewrite Htok. cbn [db trace]. rewrite Hget. cbn [db trace]. rewrite Hfree.
  unfold volunteering_comment in Hcomment. rewrite Hcomment. cbn [db trace].
  rewrite <- !app_assoc. cbn [app].
  by destruct (issues_addAssignees env _ _ _ _ _).
Qed.

(** X14. When the first candidate is free on the remote and every remote
    call goes through, the volunteer comments under his own token, is
    assigned by the app, and gets one claim on that candidate's item; the
    notification follows the write, so a refused notification is only
    logged and the claim stays. *)
Theorem first_candidate_claimed env user user_id channel_id first rest gh rp
    tok a w :
  truthy (githubToken user) = true →
  truthy (githubUsername user) = true →
  volunteerDetail_findFirst (u_id user) (db w) = None →
  c_githubItem first = Some gh →
  j_repository gh = Some rp →
  truthy (Some (repo_owner rp)) = true →
  truthy (Some (repo_name rp)) = true →
  installationToken env (repo_owner rp) (repo_name rp) = Some tok →
  issues_get env (String.append "Bearer " tok) (repo_owner rp) (repo_name rp)
             (number (j_item gh)) = Some a →
  has_assignees a = false →
  issues_createComment env
    (String.append "Bearer " (default "" (githubToken user)))
    (repo_owner rp) (repo_name rp) (number (j_item gh)) volunteering_comment
  = true →
  issues_addAssignees env (String.append "Bearer " tok) (repo_owner rp)
    (repo_name rp) (number (j_item gh)) [default "" (githubUsername user)]
  = true →
  existsb (fun u => Nat.eqb (u_id u) (u_id user)) (users (db w)) = true →
  is_Some (githubItem_by_id (gi_id (j_item gh)) (db w)) →
  assignIssueToVolunteer env (first :: rest) user user_id channel_id w
  = ({| db := {| repositories := repositories (db w); users := users (db w);
                 githubItems := githubItems (db w); labels := labels (db w);
                 volunteerDetails :=
                   volunteerDetails (db w)
                   ++ [{| vd_assignee := u_id user; assignedOn := now env;
                          vd_issue := gi_id (j_item gh) |}];
                 nextId := nextId (db w) |};
        trace := trace w
                 ++ [GetInstallationToken (repo_owner rp) (repo_name rp);
                     IssuesGet (String.append "Bearer " tok) (repo_owner rp)
                               (repo_name rp) (number (j_item gh));
                     CreateComment
                       (String.append "Bearer " (default "" (githubToken user)))
                       (repo_owner rp) (repo_name rp) (number (j_item gh))
                       volunteering_comment;
                     AddAssignees (String.append "Bearer " tok) (repo_owner rp)
                                  (repo_name rp) (number (j_item gh))
                                  [default "" (githubUsername user)];
                     Slack (PostMessage user_id (assigned_text first))]
                 ++ match slack_post env
                            (PostMessage user_id (assigned_text first)) with
                    | Some _ => []
                    | None => [ConsoleLog SlackError]
                    end |},
     Ok None).
Proof.
  intros Ht Hu Hv Hgh Hrp Ho Hn Htok Hget Hfree Hcomment Hassign Huser Hitem.
  rewrite assign_eligible by done.
  pose proof (claimLoop_first_free env user first rest gh rp tok a w
                Hgh Hrp Ho Hn Htok Hget Hfree Hcomment) as Hloop.
  rewrite Hassign in Hloop.
  rewrite (try_catch_bind_ok _ _ _ _ _ _ Hloop).
  unfold try_catch, bind, first_item, ret, prisma, volunteerDetail_create,
    slack_call, remote, emit, throw.
  rewrite Hgh. cbn [fmap option_fmap option_map compose db trace].
  rewrite Huser, (bool_decide_eq_true_2 _ Hitem). cbn.
  destruct (slack_post env _); cbn; rewrite <- ?app_assoc; cbn;
    rewrite ?app_nil_r; done.
Qed.

Lemma first_candidate_claimed_witness :
  assignIssueToVolunteer Demo.env [Demo.candidate_Y; Demo.candidate_X]
                         Demo.dave "U0DAVE" "C0HELP"
                         (Demo.world Demo.store_team)
  = ({| db := {| repositories := repositories Demo.store_team;
                 users := users Demo.store_team;
                 githubItems := githubItems Demo.store_team;
                 labels := labels Demo.store_team;
                 volunteerDetails :=
                   [{| vd_assignee := 5; assignedOn := "2024-01-01T00:00:00Z";
                       vd_issue := 7 |}];
                 nextId := 9 |};
        trace := [GetInstallationToken "acme" "demo";
                  IssuesGet "Bearer ghs_app" "acme" "demo" 8;
                  CreateComment "Bearer gho_dave" "acme" "demo" 8
                                volunteering_comment;
                  AddAssignees "Bearer ghs_app" "acme" "demo" 8 ["dave"];
                  Slack (PostMessage "U0DAVE"
                           (AssignedTo (Some 8) (Some Demo.url) (Some "demo")
                                       (Some "acme")))] |},
     Ok None).
Proof.
  apply (first_candidate_claimed Demo.env Demo.dave "U0DAVE" "C0HELP"
           Demo.candidate_Y [Demo.candidate_X]
           {| j_item := Demo.item_Y; j_repository := Some Demo.repo |}
           Demo.repo "ghs_app" (Some []) (Demo.world Demo.store_team));
    try reflexivity.
  apply (bool_decide_unpack _). vm_compute. exact I.
Defined.

(** X15. When the assignment is refused after the comment went through,
    the failure is caught and logged: no claim is written and the
    volunteer is not notified, but the comment stays on the issue. *)
Theorem failed_assignment_leaves_comment env user user_id channel_id first
    rest gh rp tok a w :
  truthy (githubToken user) = true →
  truthy (githubUsername user) = true →
  volunteerDetail_findFirst (u_id user) (db w) = None →
  c_githubItem first = Some gh →
  j_repository gh = Some rp →
  truthy (Some (repo_owner rp)) = true →
  truthy (Some (repo_name rp)) = true →
  installationToken env (repo_owner rp) (repo_name rp) = Some tok →
  issues_get env (String.append "Bearer " tok) (repo_owner rp) (repo_name rp)
             (number (j_item gh)) = Some a →
  has_assignees a = false →
  issues_createComment env
    (String.append "Bearer " (default "" (githubToken user)))
    (repo_owner rp) (repo_name rp) (number (j_item gh)) volunteering_comment
  = true →
  issues_addAssignees env (String.append "Bearer " tok) (repo_owner rp)
    (repo_name rp) (number (j_item gh)) [default "" (githubUsername user)]
  = false →
  assignIssueToVolunteer env (first :: rest) user user_id channel_id w
  = ({| db := db w;
        trace := trace w
                 ++ [GetInstallationToken (repo_owner rp) (repo_name rp);
                     IssuesGet (String.append "Bearer " tok) (repo_owner rp)
                               (repo_name rp) (number (j_item gh));
                     CreateComment
                       (String.append "Bearer " (default "" (githubToken user)))
                       (repo_owner rp) (repo_name rp) (number (j_item gh))
                       volunteering_comment;
                     AddAssignees (String.append "Bearer " tok) (repo_owner rp)
                                  (repo_name rp) (number (j_item gh))
                                  [default "" (githubUsername user)];
                     ConsoleLog HttpError] |},
     Ok None).
Proof.
  intros Ht Hu Hv Hgh Hrp Ho Hn Htok Hget Hfree Hcomment Hassign.
  rewrite assign_eligible by done.
  pose proof (claimLoop_first_free env user first rest gh rp tok a w
                Hgh Hrp Ho Hn Htok Hget Hfree Hcomment) as Hloop.
  rewrite Hassign in Hloop.
  rewrite (try_catch_bind_throw _ _ _ _ HttpError) by (by rewrite Hloop).
  rewrite Hloop. unfold bind, emit, ret. cbn [fst db trace].
  by rewrite <- !app_assoc.
Qed.

Lemma failed_assignment_leaves_comment_witness :
  assignIssueToVolunteer Demo.env_refusing [Demo.candidate_Y] Demo.dave
                         "U0DAVE" "C0HELP" (Demo.world Demo.store_team)
  = ({| db := Demo.store_team;
        trace := [GetInstallationToken "acme" "demo";
                  IssuesGet "Bearer ghs_app" "acme" "demo" 8;
                  CreateComment "Bearer gho_dave" "acme" "demo" 8
                                volunteering_comment;
                  AddAssignees "Bearer ghs_app" "acme" "demo" 8 ["dave"];
                  ConsoleLog HttpError] |},
     Ok None).
Proof.
  apply (failed_assignment_leaves_comment Demo.env_refusing Demo.dave
           "U0DAVE" "C0HELP" Demo.candidate_Y []
           {| j_item := Demo.item_Y; j_repository := Some Demo.repo |}
           Demo.repo "ghs_app" (Some []) (Demo.world Demo.store_team));
    reflexivity.
Defined.

(** X16. The claim an eligible volunteer's call writes, when it writes
    one, is always on the item of the first candidate of the list,
    whichever candidate the loop stopped at. *)
Theorem claim_goes_to_first_candidate env items user user_id channel_id w :
  truthy (githubToken user) = true →
  truthy (githubUsername user) = true →
  volunteerDetail_findFirst (u_id user) (db w) = None →
  db (fst (assignIssueToVolunteer env items user user_id channel_id w)) = db w
  ∨ ∃ first rest gh,
      items = first :: rest ∧ c_githubItem first = Some gh ∧
      volunteerDetails
        (db (fst (assignIssueToVolunteer env items user user_id channel_id w)))
      = (volunteerDetails (db w)
         ++ [{| vd_assignee := u_id user; assignedOn := now env;
                vd_issue := gi_id (j_item gh) |}])%list.
Proof. apply claim_is_for_first_candidate. Qed.

Lemma claim_goes_to_first_candidate_witness :
  db (fst (assignIssueToVolunteer Demo.env
             [Demo.candidate_X; Demo.candidate_Y] Demo.dave
             "U0DAVE" "C0HELP" (Demo.world Demo.store_team)))
  = Demo.store_team
  ∨ ∃ first rest gh,
      [Demo.candidate_X; Demo.candidate_Y] = first :: rest ∧
      c_githubItem first = Some gh ∧
      volunteerDetails
        (db (fst (assignIssueToVolunteer Demo.env
                    [Demo.candidate_X; Demo.candidate_Y] Demo.dave
                    "U0DAVE" "C0HELP" (Demo.world Demo.store_team))))
      = [{| vd_assignee := 5; assignedOn := "2024-01-01T00:00:00Z";
            vd_issue := gi_id (j_item gh) |}].
Proof.
  apply (claim_goes_to_first_candidate Demo.env
           [Demo.candidate_X; Demo.candidate_Y] Demo.dave
           "U0DAVE" "C0HELP" (Demo.world Demo.store_team)); reflexivity.
Defined.

(** X17. When a remote call of the loop fails, the exception is caught
    and logged and the call returns normally: the store is left as it
    was, and nothing is sent after the failed call, so the volunteer gets
    no notification either. *)
Theorem loop_failure_is_logged env items user user_id channel_id w w' e :
  truthy (githubToken user) = true →
  truthy (githubUsername user) = true →
  volunteerDetail_findFirst (u_id user) (db w) = None →
  claimLoop env user items w = (w', Throw e) →
  assignIssueToVolunteer env items user user_id channel_id w
  = ({| db := db w; trace := trace w' ++ [ConsoleLog e] |}, Ok None).
Proof.
  intros Ht Hu Hv Hl. rewrite assign_eligible by done.
  rewrite (try_catch_bind_throw _ _ _ _ e) by (by rewrite Hl).
  pose proof (claimLoop_db env user items w) as Hdb.
  rewrite Hl in *. cbn in Hdb. unfold bind, emit, ret. cbn.
  by rewrite Hdb.
Qed.

Lemma loop_failure_is_logged_witness :
  assignIssueToVolunteer Scenario.env_down
    [Demo.candidate_X; Demo.candidate_Y] Demo.dave "U0DAVE" "C0HELP"
    (Demo.world Demo.store_team)
  = ({| db := Demo.store_team;
        trace := [GetInstallationToken "acme" "demo"; ConsoleLog HttpError] |},
     Ok None).
Proof.
  apply (loop_failure_is_logged Scenario.env_down
           [Demo.candidate_X; Demo.candidate_Y] Demo.dave "U0DAVE" "C0HELP"
           (Demo.world Demo.store_team)
           {| db := Demo.store_team;
              trace := [GetInstallationToken "acme" "demo"] |} HttpError);
    reflexivity.
Defined.

(** X18. For a candidate whose item has no repository, or a repository
    with an empty owner or name, no installation token is requested: the
    first thing sent for it is the issue fetch, under the bare credential
    "Bearer ". *)
Theorem nameless_repository_gets_no_token env user first rest gh w :
  c_githubItem first = Some gh →
  or_empty (repo_owner <$> j_repository gh) = ""
  ∨ or_empty (repo_name <$> j_repository gh) = "" →
  ∃ evs,
    trace (fst (claimLoop env user (first :: rest) w))
    = (trace w
       ++ IssuesGet "Bearer " (or_empty (repo_owner <$> j_repository gh))
                    (or_empty (repo_name <$> j_repository gh))
                    (number (j_item gh)) :: evs)%list.
Proof.
  intros Hgh Hempty. rewrite claimLoop_cons, Hgh.
  unfold claim_attempt, getOctokitToken.
  assert (negb (truthy (Some (or_empty (repo_owner <$> j_repository gh))))
          || negb (truthy (Some (or_empty (repo_name <$> j_repository gh))))
          = true) as ->.
  { destruct Hempty as [-> | ->]; [done|]. by rewrite orb_true_r. }
  unfold remote, bind, emit, ret, throw, guard_ok. cbn [db trace].
  destruct (issues_get env _ _ _ _) as [issue|]; cbn [db trace];
    [|by exists []].
  destruct (has_assignees issue).
  - match goal with
    | |- context [claimLoop env user rest ?w1] =>
        destruct (claimLoop_shape env user rest w1) as (evs & Hevs & _)
    end.
    exists evs. rewrite Hevs. cbn [trace]. by rewrite <- app_assoc.
  - destruct (issues_createComment env _ _ _ _ _); cbn [db trace].
    + destruct (issues_addAssignees env _ _ _ _ _); cbn [fst db trace];
        eexists; rewrite <- !app_assoc; reflexivity.
    + cbn [fst db trace]. eexists. rewrite <- !app_assoc. reflexivity.
Qed.

Lemma nameless_repository_gets_no_token_witness :
  ∃ evs,
    trace (fst (claimLoop Demo.env Demo.dave
                  [Scenario.orphan_candidate; Demo.candidate_X]
                  (Demo.world Demo.store_team)))
    = IssuesGet "Bearer " "" "" 8 :: evs.
Proof.
  apply (nameless_repository_gets_no_token Demo.env Demo.dave
           Scenario.orphan_candidate [Demo.candidate_X]
           {| j_item := Demo.item_Y; j_repository := None |}
           (Demo.world Demo.store_team)).
  - reflexivity.
  - left. reflexivity.
Defined.

(** ** The review-request handler *)

Lemma notifyReviewers_all_pass ws s text reviewers :
  forallb (reviewer_passes ws s text) reviewers = true →
  notifyReviewers ws s text reviewers
  = (map (reviewer_event ws s text) reviewers, Ok tt).
Proof.
  induction reviewers as [|r rest IH]; [done|].
  cbn [forallb notifyReviewers map]. intros [Hr Hrest]%andb_true_iff.
  rewrite (IH Hrest). unfold reviewer_passes in Hr. unfold reviewer_event.
  destruct (truthy (reviewer_contact ws s r)); [|done].
  cbn in Hr. by rewrite Hr.
Qed.

Lemma notifyReviewers_refused ws s text pre r post :
  forallb (reviewer_passes ws s text) pre = true →
  reviewer_passes ws s text r = false →
  notifyReviewers ws s text (pre ++ r :: post)
  = (map (reviewer_event ws s text) (pre ++ [r]), Throw SlackError).
Proof.
  intros Hpre Hr. induction pre as [|r' pre IH].
  - cbn. unfold reviewer_passes in Hr. unfold reviewer_event.
    destruct (truthy (reviewer_contact ws s r)); [|done].
    cbn in Hr. by rewrite Hr.
  - cbn [forallb] in Hpre. apply andb_true_iff in Hpre as [Hr' Hpre].
    cbn [app notifyReviewers map]. rewrite (IH Hpre).
    unfold reviewer_passes in Hr'. unfold reviewer_event.
    destruct (truthy (reviewer_contact ws s r')); [|done].
    cbn in Hr'. by rewrite Hr'.
Qed.

(** X19. On a monitored repository, when no post is refused, the handler
    answers every requested reviewer once and in order: a Slack message to
    the reviewer's contact, or a console line when there is none; and it
    returns normally. *)
Theorem every_reviewer_is_answered env ws s payload project :
  getProjectName env (pr_repository_url payload) = Some project →
  truthy (Some project) = true →
  forallb (reviewer_passes ws s
             (review_text project (sender_login payload)
                          (pr_html_url payload)))
          (requested_reviewers payload) = true →
  reviewRequested env ws s payload
  = (map (reviewer_event ws s
            (review_text project (sender_login payload)
                         (pr_html_url payload)))
         (requested_reviewers payload),
     Ok tt).
Proof.
  intros Hp Ht Hall. unfold reviewRequested. rewrite Hp, Ht. cbn [negb].
  by apply notifyReviewers_all_pass.
Qed.

Lemma every_reviewer_is_answered_witness :
  reviewRequested Demo.env Scenario.workspace Demo.store_team
    (Scenario.review [Some "carol"; Some "alice"; None; Some "dave"])
  = ([ReviewMessage "U0CAROL" Scenario.review_message;
      NoUserFound (Some "alice");
      NoUserFound None;
      ReviewMessage "U0DAVE" Scenario.review_message],
     Ok tt).
Proof.
  apply (every_reviewer_is_answered Demo.env Scenario.workspace
           Demo.store_team
           (Scenario.review [Some "carol"; Some "alice"; None; Some "dave"])
           "demo"); reflexivity.
Defined.

(** X20. The handler does not catch a refused post: it stops at the first
    reviewer whose message Slack refuses, the reviewers after that one are
    neither messaged nor logged, and the exception leaves the handler. *)
Theorem refused_post_ends_the_handler env ws s payload project pre r post :
  getProjectName env (pr_repository_url payload) = Some project →
  truthy (Some project) = true →
  requested_reviewers payload = (pre ++ r :: post)%list →
  forallb (reviewer_passes ws s
             (review_text project (sender_login payload)
                          (pr_html_url payload))) pre = true →
  reviewer_passes ws s
    (review_text project (sender_login payload) (pr_html_url payload)) r
  = false →
  reviewRequested env ws s payload
  = (map (reviewer_event ws s
            (review_text project (sender_login payload)
                         (pr_html_url payload)))
         (pre ++ [r]),
     Throw SlackError).
Proof.
  intros Hp Ht Hrs Hpre Hr. unfold reviewRequested.
  rewrite Hp, Ht, Hrs. cbn [negb].
  by apply notifyReviewers_refused.
Qed.

Lemma refused_post_ends_the_handler_witness :
  reviewRequested Demo.env Scenario.workspace Demo.store_team
    (Scenario.review [Some "dave"; Some "erin"; Some "carol"])
  = ([ReviewMessage "U0DAVE" Scenario.review_message;
      ReviewMessage "U0ERIN" Scenario.review_message],
     Throw SlackError).
Proof.
  apply (refused_post_ends_the_handler Demo.env Scenario.workspace
           Demo.store_team
           (Scenario.review [Some "dave"; Some "erin"; Some "carol"])
           "demo" [Some "dave"] (Some "erin") [Some "carol"]); reflexivity.
Defined.

(** ** Display names *)

(** X21. The display name of a maintainer is the maintainer's configured
    id, whatever the Slack and GitHub directories hold. The installation
    token of the repository is requested first all the same (unless the
    owner or the name is empty), and the call fails when it cannot be
    had. *)
Theorem maintainer_display_name env ws owner name slackId github m w :
  List.find (fun m => bool_decide (m_github m = github)
                      || bool_decide (Some (m_slack m) = slackId))
            (MAINTAINERS ws) = Some m →
  getDisplayName env ws owner name slackId github w
  = if negb (truthy (Some owner)) || negb (truthy (Some name))
    then (w, Ok (m_id m))
    else ({| db := db w;
             trace := trace w ++ [GetInstallationToken owner name] |},
          match installationToken env owner name with
          | Some _ => Ok (m_id m)
          | None => Throw HttpError
          end).
Proof.
  intros Hm. unfold getDisplayName, getOctokitToken. rewrite Hm.
  destruct (negb (truthy (Some owner)) || negb (truthy (Some name))); [done|].
  unfold remote, bind, emit, ret, throw. cbn [db trace].
  by destruct (installationToken env owner name).
Qed.

Lemma maintainer_display_name_witness :
  getDisplayName Scenario.env_down Scenario.workspace "acme" "demo"
                 (Some "U0CAROL") None (Demo.world Demo.empty)
  = ({| db := Demo.empty; trace := [GetInstallationToken "acme" "demo"] |},
     Throw HttpError).
Proof.
  apply (maintainer_display_name Scenario.env_down Scenario.workspace
           "acme" "demo" (Some "U0CAROL") None Demo.carol
           (Demo.world Demo.empty)).
  reflexivity.
Defined.

(** ** One claim per volunteer *)

Lemma find_assignee_None uid (vds : list VolunteerDetail) :
  List.find (fun v => Nat.eqb (vd_assignee v) uid) vds = None →
  uid ∉ map vd_assignee vds.
Proof.
  intros Hf Hin. apply list_elem_of_fmap in Hin as (v & -> & Hv).
  apply list_elem_of_In in Hv.
  pose proof (find_none _ _ Hf v Hv) as Hne. cbn in Hne.
  by rewrite Nat.eqb_refl in Hne.
Qed.

(** X22. Calls that come one after the other keep the central invariant:
    if no volunteer holds two claims before a call to the coordinator,
    none does after it, whoever calls, with whatever candidates and
    whatever the remote answers. *)
Theorem single_claim_preserved env items user user_id channel_id w :
  NoDup (map vd_assignee (volunteerDetails (db w))) →
  NoDup (map vd_assignee
           (volunteerDetails
              (db (fst (assignIssueToVolunteer env items user user_id
                                               channel_id w))))).
Proof.
  intros Hnd.
  destruct (negb (truthy (githubToken user))
            || negb (truthy (githubUsername user))) eqn:Hguard.
  { assert (db (fst (assignIssueToVolunteer env items user user_id
                                            channel_id w)) = db w) as ->; [|done].
    unfold assignIssueToVolunteer. rewrite Hguard. unfold bind.
    rewrite slack_call_run. by destruct (slack_post env _). }
  apply orb_false_iff in Hguard as [Ht Hu].
  apply negb_false_iff in Ht, Hu.
  destruct (volunteerDetail_findFirst (u_id user) (db w)) as [[v issue]|] eqn:Hv.
  { assert (db (fst (assignIssueToVolunteer env items user user_id
                                            channel_id w)) = db w) as ->; [|done].
    unfold assignIssueToVolunteer. rewrite Ht, Hu. cbn [negb orb].
    unfold bind at 1. unfold query at 1. cbn [db]. rewrite Hv.
    unfold bind. rewrite slack_call_run. by destruct (slack_post env _). }
  destruct (assign_eligible_db env items user user_id channel_id w Ht Hu Hv)
    as [-> | [i ->]]; [done|]. cbn [volunteerDetails].
  rewrite map_app. cbn [map vd_assignee]. apply NoDup_app. split_and!.
  - done.
  - intros x Hx Hx'. apply list_elem_of_singleton in Hx' as ->.
    revert Hx. apply find_assignee_None.
    unfold volunteerDetail_findFirst in Hv.
    by destruct (List.find _ (volunteerDetails (db w))).
  - apply NoDup_singleton.
Qed.

Lemma single_claim_preserved_witness :
  NoDup (map vd_assignee
           (volunteerDetails
              (db (fst (assignIssueToVolunteer Demo.env
                          [Demo.candidate_Y; Demo.candidate_X] Demo.dave
                          "U0DAVE" "C0HELP" (Demo.world Demo.store_claimed)))))).
Proof.
  apply (single_claim_preserved Demo.env [Demo.candidate_Y; Demo.candidate_X]
           Demo.dave "U0DAVE" "C0HELP" (Demo.world Demo.store_claimed)).
  apply (bool_decide_unpack _). vm_compute. exact I.
Defined.

(** ** The repository table *)

(** X23. On a monitored repository every reconciliation, however it
    ends, changes the repository table by the upsert of the payload's
    repository alone: the record under its url gets the payload's name and
    owner and keeps the id and url it had when it was already stored, and
    every other record is as before. *)
Theorem repositories_change_by_upsert env p w :
  truthy (getProjectName env (html_url (p_repository p))) = true →
  ∃ r,
    repositories (db (fst (createGithubItem env p w)))
    = <[html_url (p_repository p) := r]> (repositories (db w)) ∧
    repo_name r = p_name (p_repository p) ∧
    repo_owner r = owner_login (p_repository p) ∧
    ∀ r0, repositories (db w) !! html_url (p_repository p) = Some r0 →
          repo_id r = repo_id r0 ∧ repo_url r = repo_url r0.
Proof.
  intros Hp.
  assert (Hup : ∃ s1 r,
            repository_upsert (html_url (p_repository p))
              (p_name (p_repository p)) (owner_login (p_repository p)) (db w)
            = (s1, Ok r) ∧
            repositories s1
            = <[html_url (p_repository p) := r]> (repositories (db w)) ∧
            repo_name r = p_name (p_repository p) ∧
            repo_owner r = owner_login (p_repository p) ∧
            ∀ r0, repositories (db w) !! html_url (p_repository p) = Some r0 →
                  repo_id r = repo_id r0 ∧ repo_url r = repo_url r0).
  { unfold repository_upsert.
    destruct (repositories (db w) !! html_url (p_repository p)) as [r0|];
      eexists _, _; split_and!; try done.
    by intros r1 [= <-]. }
  destruct Hup as (s1' & r' & Hr' & Hrs & Hn & Ho & Hid).
  exists r'. split_and!; try done.
  destruct (or_else (p_issue p) (p_pull_request p)) as [it|] eqn:Hit.
  2:{ rewrite createGithubItem_repository_run by (by rewrite ?Hit).
      cbn [fst db]. by rewrite Hr'. }
  destruct (is_maintainer (getMaintainers env (html_url (p_repository p)))
                          (user_login it)) eqn:Hm.
  { rewrite createGithubItem_repository_run by (by rewrite ?Hit).
    cbn [fst db]. by rewrite Hr'. }
  destruct (createGithubItem_sync env p w it Hp Hit Hm)
    as (s1 & r & s2 & a & s3 & res & Hr & Ha & Hupsert & _ & ->).
  rewrite Hr in Hr'. injection Hr' as <- <-.
  destruct (resolve_author_spec (user_login it) s1)
    as (s2' & a' & Ha' & _ & Hr2 & _).
  rewrite Ha in Ha'. injection Ha' as <- <-.
  pose proof (githubItem_upsert_frame a r it
                (actionItem_findFirst (node_id it) s2) s2) as (Hr3 & _).
  rewrite Hupsert in Hr3. cbn in Hr3. congruence.
Qed.

Lemma repositories_change_by_upsert_witness :
  ∃ r,
    repositories
      (db (fst (createGithubItem Demo.env
                  {| p_issue := Some (Demo.issue_by "alice" ["A"] "T3");
                     p_pull_request := None;
                     p_repository := {| p_name := "demo-renamed";
                                        owner_login := "acme-inc";
                                        html_url := Demo.url |} |}
                  (Demo.world Demo.store_AB))))
    = <[Demo.url := r]> (repositories Demo.store_AB) ∧
    repo_name r = "demo-renamed" ∧
    repo_owner r = "acme-inc" ∧
    ∀ r0, repositories Demo.store_AB !! Demo.url = Some r0 →
          repo_id r = repo_id r0 ∧ repo_url r = repo_url r0.
Proof.
  apply (repositories_change_by_upsert Demo.env
           {| p_issue := Some (Demo.issue_by "alice" ["A"] "T3");
              p_pull_request := None;
              p_repository := {| p_name := "demo-renamed";
                                 owner_login := "acme-inc";
                                 html_url := Demo.url |} |}
           (Demo.world Demo.store_AB)).
  reflexivity.
Defined.
